(** * hubot-slack: the Slack adapter of src/Bot.mjs

    A shallow embedding of [SlackClient] and [SlackBot] (src/Bot.mjs) and
    the properties of its conversation cache, user directory, outbound
    gateway and event normaliser.

    Conventions.
    - JavaScript objects are finite maps from property names to values
      ([gmap string value]): the own enumerable properties of an object
      whose prototype is [Object.prototype].
    - Numbers are the integers the adapter computes with (time stamps in
      milliseconds, a parsed TTL), together with [NaN]; arithmetic is exact,
      which is what IEEE doubles give below 2^53.
    - Strings are sequences of code units ([string]).
    - User and conversation identifiers are Slack identifiers, so looking
      one up in [robot.brain.data.users] or [channelData] is a map lookup.
      Field names of user records are chosen freely by scripts, so the
      [in] operator on a record is modelled in full: own properties and the
      names inherited from [Object.prototype].
    - Each operation is followed on its own, from the state in which it is
      called to the state in which it completes; what the REST client
      answers, and when, is left to the oracles.
    - The collaborators (REST client, socket acknowledgement, the runtime's
      brain and receive pipeline, the clock) are oracles of an environment
      [Env]; each answer may depend on everything that happened before.
      [SlackTextMessage.makeSlackTextMessage] (Message.mjs) is handed the
      client: its oracle answers with all it did through it (requests, log
      lines, changes of the brain and of the cache). *)

From stdpp Require Import gmap strings list fin_maps pretty.
From Stdlib Require Import ZArith Ascii String.

Local Open Scope Z_scope.
Local Open Scope string_scope.

(** ** The fragment of JavaScript the adapter relies on *)

Module JS.

(** [NaN] is the only non-integer number the adapter can produce (from
    [parseInt]). *)
Inductive number :=
| NaN
| Num (z : Z).

#[warnings="-register-all"] Inductive value :=
| VUndefined
| VNull
| VBool (b : bool)
| VNumber (n : number)
| VString (s : string)
| VObject (o : gmap string value).

Abbreviation obj := (gmap string value).

Inductive error :=
| TypeError
| Error (message : string).

(** Completion of a call: a value, or a thrown error (for an [async]
    function: a resolved or a rejected promise). *)
Inductive completion (A : Type) :=
| Normal (a : A)
| Throw (e : error).
Arguments Normal {A} a.
Arguments Throw {A} e.

(** ToBoolean *)
Definition truthy (v : value) : bool :=
  match v with
  | VUndefined | VNull => false
  | VBool b => b
  | VNumber NaN => false
  | VNumber (Num z) => negb (z =? 0)%Z
  | VString s => negb (String.eqb s "")
  | VObject _ => true
  end.

(** [v == null], also the test behind [??] and [?.] *)
Definition nullish (v : value) : bool :=
  match v with
  | VUndefined | VNull => true
  | _ => false
  end.

(** [a ?? b] *)
Definition coalesce (a b : value) : value := if nullish a then b else a.

(** [a || b] *)
Definition or_else (a b : value) : value := if truthy a then a else b.

(** [x === y] on numbers: [NaN] is different from every number, itself
    included. *)
Definition number_strict_equal (x y : number) : bool :=
  match x, y with
  | Num a, Num b => (a =? b)%Z
  | _, _ => false
  end.

(** [x < y] on numbers: false as soon as one side is [NaN]. *)
Definition number_lt (x y : number) : bool :=
  match x, y with
  | Num a, Num b => (a <? b)%Z
  | _, _ => false
  end.

(** [x - y] *)
Definition number_sub (x y : number) : number :=
  match x, y with
  | Num a, Num b => Num (a - b)
  | _, _ => NaN
  end.

(** [a === b].  Two objects are equal when they are the same reference;
    the adapter only compares values that come from different sources (a
    stored record's field against the identity response), so two objects
    are never the same reference here. *)
Definition strict_equal (a b : value) : bool :=
  match a, b with
  | VUndefined, VUndefined => true
  | VNull, VNull => true
  | VBool x, VBool y => Bool.eqb x y
  | VNumber x, VNumber y => number_strict_equal x y
  | VString x, VString y => String.eqb x y
  | _, _ => false
  end.

(** [o.k] for a property name that [Object.prototype] does not define *)
Definition get (o : obj) (k : string) : value := default VUndefined (o !! k).

(** [v.k]: reading a property of [undefined] or [null] throws; the
    primitives have none of the properties the adapter reads. *)
Definition prop (v : value) (k : string) : completion value :=
  match v with
  | VUndefined | VNull => Throw TypeError
  | VObject o => Normal (get o k)
  | _ => Normal VUndefined
  end.

Definition of_option (s : option string) : value :=
  match s with
  | Some x => VString x
  | None => VUndefined
  end.

(** The property names every object inherits from [Object.prototype]. *)
Definition Object_prototype_keys : list string :=
  [ "constructor"; "__defineGetter__"; "__defineSetter__"; "hasOwnProperty";
    "__lookupGetter__"; "__lookupSetter__"; "isPrototypeOf";
    "propertyIsEnumerable"; "toString"; "valueOf"; "__proto__";
    "toLocaleString" ].

Definition inherited (k : string) : bool :=
  bool_decide (k ∈ Object_prototype_keys).

(** [k in o]: own or inherited property (HasProperty walks the prototype
    chain). *)
Definition has_property (k : string) (o : obj) : bool :=
  match o !! k with
  | Some _ => true
  | None => inherited k
  end.

(** [for (k in o) body]: the own enumerable properties, each visited
    once. *)
Definition for_in {B} (o : obj) (body : string → value → B → B) (init : B) : B :=
  map_fold body init o.

(** ToPropertyKey / string conversion of a value used as a key *)
Definition to_property_key (v : value) : string :=
  match v with
  | VUndefined => "undefined"
  | VNull => "null"
  | VBool true => "true"
  | VBool false => "false"
  | VNumber NaN => "NaN"
  | VNumber (Num z) => pretty z
  | VString s => s
  | VObject _ => "[object Object]"
  end.

(** The own enumerable string-keyed properties of a value, as [{...v}]
    and [for (k in v)] see them: an object's properties, the indexed code
    units of a string, nothing for the other primitives. *)
Fixpoint string_properties (i : nat) (s : string) : obj :=
  match s with
  | EmptyString => ∅
  | String c s' => <[pretty i := VString (String c EmptyString)]> (string_properties (S i) s')
  end.

Definition own_enumerable (v : value) : obj :=
  match v with
  | VObject o => o
  | VString s => string_properties 0 s
  | _ => ∅
  end.

(** [{ ...base, ...v }] once [base] has been laid down: every own
    enumerable property of [v] is defined on the literal, in turn. *)
Definition spread (v : value) (base : obj) : obj :=
  for_in (own_enumerable v) (λ k x acc, <[k := x]> acc) base.

(** *** Strings *)

(** [Some rest] when [p] is a prefix of [s] and [s = p ++ rest] *)
Fixpoint strip_prefix (p s : string) : option string :=
  match p, s with
  | EmptyString, _ => Some s
  | String a p', String b s' => if Ascii.eqb a b then strip_prefix p' s' else None
  | String _ _, EmptyString => None
  end.

(** The first occurrence of [pat] in [s]: what precedes it and what
    follows it. *)
Fixpoint split_first (pat s : string) : option (string * string) :=
  match strip_prefix pat s with
  | Some rest => Some (EmptyString, rest)
  | None =>
      match s with
      | EmptyString => None
      | String c s' =>
          match split_first pat s' with
          | Some (before, after) => Some (String c before, after)
          | None => None
          end
      end
  end.

(** [s.includes(pat)] *)
Definition includes (s pat : string) : bool :=
  match split_first pat s with
  | Some _ => true
  | None => false
  end.

(** GetSubstitution for a string pattern (no capture groups): [$$], [$&],
    [$`] and [$'] are expanded, every other character is literal. *)
Fixpoint get_substitution (matched before after replacement : string) : string :=
  match replacement with
  | EmptyString => EmptyString
  | String c r =>
      if Ascii.eqb c "$" then
        match r with
        | String d r' =>
            if Ascii.eqb d "$" then String "$" (get_substitution matched before after r')
            else if Ascii.eqb d "&" then matched +:+ get_substitution matched before after r'
            else if Ascii.eqb d "`" then before +:+ get_substitution matched before after r'
            else if Ascii.eqb d "'" then after +:+ get_substitution matched before after r'
            else String c (get_substitution matched before after r)
        | EmptyString => String c EmptyString
        end
      else String c (get_substitution matched before after r)
  end.

(** [s.replace(pat, replacement)] with a string pattern: the first
    occurrence only. *)
Definition replace (s pat replacement : string) : string :=
  match split_first pat s with
  | Some (before, after) =>
      before +:+ get_substitution pat before after replacement +:+ after
  | None => s
  end.

(** *** parseInt(s, 10) *)

Definition is_white_space (c : ascii) : bool :=
  let n := N_of_ascii c in
  ((9 <=? n) && (n <=? 13) || (n =? 32))%N.

Definition digit_of (c : ascii) : option Z :=
  let n := N_of_ascii c in
  if ((48 <=? n) && (n <=? 57))%N then Some (Z.of_N n - 48) else None.

Fixpoint trim_start (s : string) : string :=
  match s with
  | String c s' => if is_white_space c then trim_start s' else s
  | EmptyString => EmptyString
  end.

Definition parse_sign (s : string) : Z * string :=
  match s with
  | String "-" s' => (-1, s')
  | String "+" s' => (1, s')
  | _ => (1, s)
  end.

(** The value of the longest prefix of decimal digits; [acc] is [None]
    until a digit has been read. *)
Fixpoint digits_prefix (s : string) (acc : option Z) : option Z :=
  match s with
  | String c s' =>
      match digit_of c with
      | Some d => digits_prefix s' (Some (10 * default 0 acc + d))
      | None => acc
      end
  | EmptyString => acc
  end.

(** The integer that [parseInt(s, 10)] reads. The real result is that
    integer as a double: the two agree up to 2^53 in absolute value,
    which is the range of the numbers of this development. *)
Definition parseInt (s : string) : number :=
  let '(sign, rest) := parse_sign (trim_start s) in
  match digits_prefix rest None with
  | Some n => Num (sign * n)
  | None => NaN
  end.

End JS.

Import JS.

(** ** More of JavaScript: conversion to a string, indexing *)

Module Conversion.

(** ToString of a value, as a template literal applies it. The values
    of the model are never callable, so an object with a [toString] field
    of its own has no method that yields a primitive and the conversion
    throws; any other object is converted by [Object.prototype.toString]. *)
Definition to_string (v : value) : completion string :=
  match v with
  | VObject o =>
      match o !! "toString" with
      | Some _ => Throw TypeError
      | None => Normal "[object Object]"
      end
  | _ => Normal (to_property_key v)
  end.

(** [v[0]]: the first code unit of a string, the property ["0"] of an
    object, [undefined] for the other primitives; [undefined] and [null]
    have no properties. *)
Definition index0 (v : value) : completion value :=
  match v with
  | VUndefined | VNull => Throw TypeError
  | VString (String c _) => Normal (VString (String c EmptyString))
  | VObject o => Normal (get o "0")
  | _ => Normal VUndefined
  end.

(** An argument of [send] or [reply]: a callback or a message *)
Inductive argument :=
| Function
| Value (v : value).

End Conversion.

Import Conversion.

(** ** Module initialisation: the conversation-cache TTL (Bot.mjs 8-11, 173-175) *)

Module Startup.

(** [process.env.HUBOT_SLACK_CONVERSATION_CACHE_TTL_MS ? parseInt(.., 10) : 5 * 60 * 1000] *)
Definition CONVERSATION_CACHE_TTL_MS (env : option string) : number :=
  match env with
  | Some s => if truthy (VString s) then parseInt s else Num (5 * 60 * 1000)
  | None => Num (5 * 60 * 1000)
  end.

(** The check that follows the class:
    [if (SlackClient.CONVERSATION_CACHE_TTL_MS === NaN) throw new Error(..)].
    The result is the constant the module is loaded with. *)
Definition module_init (env : option string) : completion number :=
  let ttl := CONVERSATION_CACHE_TTL_MS env in
  if strict_equal (VNumber ttl) (VNumber NaN)
  then Throw (Error "HUBOT_SLACK_CONVERSATION_CACHE_TTL_MS must be a number. It could not be parsed.")
  else Normal ttl.

End Startup.

(** ** What the adapter exchanges with its collaborators *)

(** A cached conversation: [{ channel: r.channel, updated: Date.now() }] *)
Record entry := Entry { channel : value; updated : Z }.

(** [envelope.room], [envelope.id] and [envelope.message], the latter
    absent or a message object. *)
Module Envelope.
Record t := Build {
  room : value;
  id : value;
  message : option obj
}.
End Envelope.

(** The event object of a socket message ([message.event] and
    [message.body.event]); an absent or [null] field is [None]. *)
Record slack_event := SlackEvent {
  type : option string;
  user : option string;
  channel_id : option string;
  team : option string;
  ts : option string;
  text : option string;
  message_text : option string;      (* event.message?.text *)
  channel_type : option string;
  subtype : option string;
  item : option obj;
  item_user : option obj;
  reaction : option string;
  file_id : option string;
  event_ts : option string;
  user_id : option string
}.

(** What the socket hands to [eventWrapper]: the optional acknowledgement
    function, [message.body.event], [message.event] and the outer
    [message.ts]. The handler reads the type, user, channel and ts of
    [message.event], and everything else, the text included, from
    [message.body.event]; it only writes [message.body.event.text]. Whether
    the two fields hold one object or two therefore makes no difference,
    and they are kept apart. *)
Record socket_message := SocketMessage {
  ack : bool;
  body_event : option slack_event;
  event : option slack_event;
  outer_ts : option string
}.

(** The messages of the runtime the handler builds. [EnterMessage] carries
    the resolved user record, [LeaveMessage] the user identifier it was
    constructed with; both get their [ts] assigned after construction.
    [SlackTextMessage] stands for the message that
    [SlackTextMessage.makeSlackTextMessage] (Message.mjs) builds from the
    arguments recorded here. *)
Inductive hubot_message :=
| EnterMessage (from : obj) (msg_ts : option string)
| LeaveMessage (user : option string) (msg_ts : option string)
| ReactionMessage (type : option string) (from : obj) (reaction : option string)
    (item_user : obj) (item : option obj) (event_ts : option string)
| FileSharedMessage (from : obj) (file_id : option string) (event_ts : option string)
| SlackTextMessage (from : obj) (text : string) (rawMessage : slack_event)
    (channel_id : option string).

Inductive level := debug | info | error_level.

Inductive rest_call :=
| conversations_info (channel : string)
| users_info (user : option string)
| users_list (limit : number) (cursor : option value)
| chat_postMessage (messageOptions : obj).

(** Everything the adapter does to the outside, in the order it happens:
    log lines, REST requests, acknowledgements, messages handed to the
    receive pipeline, calls of [makeSlackTextMessage], and calls of the
    completion callback of [loadUsers]. *)
Inductive effect :=
| Log (l : level) (line : string)
| Rest (c : rest_call)
| Ack
| Receive (m : hubot_message)
| MakeText (text : string)
| Callback (err : option error) (combinedResults : option (list obj)).

(** The answer to one [users.list] request, as it reaches [pageLoaded]. *)
Inductive page_result :=
| PageError (e : error)
| Page (members : list obj) (next_cursor : value).

(** The mutable state: [robot.brain.data.users], [this.channelData] and
    the history of effects. *)
Record State := {
  users : gmap string obj;
  channelData : gmap string entry;
  trace : list effect
}.

(** What a callee that is handed the client leaves behind: its outcome,
    the brain and the cache as it leaves them, and the effects it added
    to the history (requests, log lines, ...). *)
Record driven := Driven {
  outcome : completion unit;
  brain_after : gmap string obj;
  cache_after : gmap string entry;
  effects : list effect
}.

(** The collaborators. Each oracle reads the history of effects so far. *)
Record Env := {
  (** [web.conversations.info]: the [channel] field of the response *)
  web_conversations_info : list effect → string → completion value;
  (** [web.users.info]: the [user] field of the response *)
  web_users_info : list effect → option string → completion (option obj);
  (** [web.chat.postMessage] *)
  web_chat_postMessage : list effect → obj → completion unit;
  (** [Date.now()] *)
  Date_now : list effect → Z;
  (** [message.ack()] *)
  socket_ack : list effect → completion unit;
  (** [robot.brain.userForId(id, options)] of the runtime, acting on
      [robot.brain.data.users] *)
  brain_userForId : string → option obj → gmap string obj → completion (gmap string obj * obj);
  (** [Adapter#receive], i.e. the runtime's receive pipeline *)
  robot_receive : list effect → hubot_message → completion unit;
  (** [SlackTextMessage.makeSlackTextMessage(from, null, text, rawMessage,
      channel, robot.name, robot.alias, this.client)] (Message.mjs): it is
      handed the client, so it reads the state it is called in and answers
      with all it did through the client *)
  makeSlackTextMessage : State → obj → string → slack_event → option string → driven
}.

(** [this.self] (the identity returned by [auth.test]) *)
Record identity := Identity { self_user_id : string; self_user : string }.

(** The configuration a run does not change: the static TTL, the page
    size, [this.self] once authenticated, [robot.alias]. *)
Record Config := {
  TTL : number;
  apiPageSize : number;
  self : option identity;
  alias : option string
}.

(** ** A monad for state, effects and exceptions *)

Definition M (A : Type) : Type := State → completion A * State.

#[export] Instance M_ret : MRet M := λ A a st, (Normal a, st).
#[export] Instance M_bind : MBind M := λ A B f m st,
  match m st with
  | (Normal a, st') => f a st'
  | (Throw e, st') => (Throw e, st')
  end.

Definition throw {A} (e : error) : M A := λ st, (Throw e, st).

(** [try { m } catch (e) { handler e }] *)
Definition try_catch {A} (m : M A) (handler : error → M A) : M A := λ st,
  match m st with
  | (Normal a, st') => (Normal a, st')
  | (Throw e, st') => handler e st'
  end.

Definition emit (e : effect) : M unit := λ st,
  (Normal tt, {| users := users st; channelData := channelData st; trace := (trace st ++ [e])%list |}).

Definition log (l : level) (line : string) : M unit := emit (Log l line).

Definition get_users : M (gmap string obj) := λ st, (Normal (users st), st).
Definition set_users (u : gmap string obj) : M unit := λ st,
  (Normal tt, {| users := u; channelData := channelData st; trace := trace st |}).
Definition get_channelData : M (gmap string entry) := λ st, (Normal (channelData st), st).
Definition set_channelData (c : gmap string entry) : M unit := λ st,
  (Normal tt, {| users := users st; channelData := c; trace := trace st |}).

(** The state after the effects [es], nothing else changed *)
Definition add_effects (st : State) (es : list effect) : State :=
  {| users := users st; channelData := channelData st; trace := (trace st ++ es)%list |}.

(** A call to a collaborator: the call is recorded, then answered. *)
Definition call {A} (e : effect) (answer : list effect → completion A) : M A := λ st,
  let st' := {| users := users st; channelData := channelData st; trace := (trace st ++ [e])%list |} in
  (answer (trace st), st').

Definition lift {A} (c : completion A) : M A := λ st, (c, st).

Definition when (b : bool) (m : M unit) : M unit := if b then m else mret tt.

(** The [Rest] and [Receive] effects of a history *)
Definition rest_calls (t : list effect) : list rest_call :=
  omap (λ e, match e with Rest c => Some c | _ => None end) t.
Definition received (t : list effect) : list hubot_message :=
  omap (λ e, match e with Receive m => Some m | _ => None end) t.
Definition errors_logged (t : list effect) : list string :=
  omap (λ e, match e with Log error_level l => Some l | _ => None end) t.

(** A computation that hands nothing to the receive pipeline *)
Definition silent {A} (m : M A) : Prop :=
  ∀ st, received (trace (m st).2) = received (trace st).

(** ** SlackClient (Bot.mjs 7-171) *)

Module SlackClient.
Section SlackClient.
Context (E : Env) (cfg : Config).

Definition now : M Z := λ st, (Normal (Date_now E (trace st)), st).

(** [envelope.room || envelope.id] *)
Definition room_of (envelope : Envelope.t) : value :=
  or_else (Envelope.room envelope) (Envelope.id envelope).

(** [envelope.message?.thread_ts] *)
Definition thread_ts_of (envelope : Envelope.t) : value :=
  match Envelope.message envelope with
  | Some m => get m "thread_ts"
  | None => VUndefined
  end.

(** The defaults of the literal of lines 81-86, before the spread:
    [{ channel: room, text: .., thread_ts }] *)
Definition defaults (room text thread_ts : value) : obj :=
  <["thread_ts" := thread_ts]> (<["text" := text]> (<["channel" := room]> ∅)).

(** [{ channel: room, text: .., thread_ts, ...message }] *)
Definition messageOptions (room text thread_ts message : value) : obj :=
  spread message (defaults room text thread_ts).

Definition no_room : string :=
  "Cannot send message without a valid room. Envelopes should contain a room property set to a Slack conversation ID.".

(** [send(envelope, message)], lines 73-94 *)
Definition send (envelope : Envelope.t) (message : value) : M unit :=
  let room := room_of envelope in
  let thread_ts := thread_ts_of envelope in
  if nullish room then log error_level no_room
  else
    (* the debug line of line 80 converts [room] and [message] to strings *)
    lift (to_string room);;
    lift (to_string message);;
    log debug "SlackClient#send()";;
    text ← lift (match message with
                 | VString _ => Normal message
                 | _ => prop message "text"
                 end);
    let messageOptions := messageOptions room text thread_ts message in
    try_catch
      (call (Rest (chat_postMessage messageOptions))
            (λ h, web_chat_postMessage E h messageOptions);;
       log debug "Successfully sent message")
      (λ e, log error_level "SlackClient#send() error").

(** The continuation [pageLoaded] of [loadUsers], lines 97-114.
    [web.users.list] calls it once per request; [responses] holds the
    answers to the requests still to come, in order. A request whose
    answer never comes leaves the load pending. *)
Fixpoint pageLoaded (responses : list page_result) (combinedResults : list obj)
    (result : page_result) : M unit :=
  match result with
  | PageError e => emit (Callback (Some e) None)
  | Page members next_cursor =>
      let combinedResults := (combinedResults ++ members)%list in
      if truthy next_cursor then
        emit (Rest (users_list (apiPageSize cfg) (Some next_cursor)));;
        match responses with
        | r :: responses' => pageLoaded responses' combinedResults r
        | [] => mret tt
        end
      else emit (Callback None (Some combinedResults))
  end.

(** [loadUsers(callback)], lines 95-116 *)
Definition loadUsers (responses : list page_result) : M unit :=
  emit (Rest (users_list (apiPageSize cfg) None));;
  match responses with
  | r :: responses' => pageLoaded responses' [] r
  | [] => mret tt
  end.

(** The test of lines 126-127 on [this.channelData[conversationId]]: the
    entry has a channel and [expiration < entry.updated]. *)
Definition valid (expiration : number) (cached : option entry) : bool :=
  negb (nullish (match cached with
                 | Some e => channel e
                 | None => VUndefined
                 end))
  && number_lt expiration (match cached with
                           | Some e => Num (updated e)
                           | None => NaN
                           end).

(** [fetchConversation(conversationId)], lines 124-137 *)
Definition fetchConversation (conversationId : string) : M value :=
  t ← now;
  let expiration := number_sub (Num t) (TTL cfg) in
  cd ← get_channelData;
  if valid expiration (cd !! conversationId)
  then
    match cd !! conversationId with
    | Some e => mret (channel e)
    | None => throw TypeError
    end
  else
    when (bool_decide (is_Some (cd !! conversationId)))
         (set_channelData (delete conversationId cd));;
    r_channel ← call (Rest (conversations_info conversationId))
                     (λ h, web_conversations_info E h conversationId);
    when (negb (nullish r_channel))
         (t' ← now;
          cd' ← get_channelData;
          set_channelData (<[conversationId := Entry r_channel t']> cd'));;
    mret r_channel.

(** The record [newUser] that [updateUserInBrain] builds from the sighted
    [user] and the record [old] stored so far, lines 141-159. *)
Definition newUser (user : value) (old : option obj) : completion obj :=
  match prop user "id", prop user "name", prop user "real_name", prop user "profile" with
  | Normal uid, Normal name, Normal real_name, Normal profile =>
      let newUser : obj :=
        <["slack" := VObject ∅]> (<["real_name" := real_name]>
          (<["name" := name]> (<["id" := uid]> ∅))) in
      let email :=
        if negb (nullish profile)
        then match prop profile "email" with Normal e => e | Throw _ => VUndefined end
        else VUndefined in
      let newUser :=
        if negb (nullish email) then <["email_address" := email]> newUser else newUser in
      let slack := for_in (own_enumerable user) (λ key value slack, <[key := value]> slack) ∅ in
      let newUser := <["slack" := VObject slack]> newUser in
      Normal
        match old with
        | Some old =>
            for_in old
              (λ key value newUser,
                 if negb (has_property key newUser) then <[key := value]> newUser else newUser)
              newUser
        | None => newUser
        end
  | _, _, _, _ => Throw TypeError
  end.

(** [updateUserInBrain(event_or_user)], lines 138-162 *)
Definition updateUserInBrain (event_or_user : obj) : M obj :=
  let user :=
    if strict_equal (get event_or_user "type") (VString "user_change")
    then get event_or_user "user"
    else VObject event_or_user in
  us ← get_users;
  uid ← lift (prop user "id");
  let key := to_property_key uid in
  newUser ← lift (newUser user (us !! key));
  set_users (delete key us);;
  '(us', stored) ← lift (brain_userForId E key (Some newUser) (delete key us));
  set_users us';;
  mret stored.

(** What [fetchUser] resolves to: a user object, or the member of
    [Object.prototype] that [users[userId]] reads when [userId] is one of
    its names and the brain holds no record under it. *)
Inductive fetched :=
| Record_of (u : obj)
| Member_of_prototype (name : string).

(** [fetchUser(userId)], lines 118-123. The result is the stored record
    on a hit and [r.user] on a miss; a response without [user] makes
    [updateUserInBrain] read a property of [undefined]. *)
Definition fetchUser (userId : string) : M fetched :=
  us ← get_users;
  match us !! userId with
  | Some u => mret (Record_of u)
  | None =>
      if inherited userId then mret (Member_of_prototype userId)
      else
        r_user ← call (Rest (users_info (Some userId)))
                      (λ h, web_users_info E h (Some userId));
        match r_user with
        | Some u => updateUserInBrain u;; mret (Record_of u)
        | None => throw TypeError
        end
  end.

Definition wrapper_error : string :=
  "bot.js: eventWrapper: An error occurred while processing an event from SlackBot's SlackClient".

(** [eventWrapper(event)], lines 163-170; [eventHandler] is
    [this.eventHandler], unset until [onEvent] is called. *)
Definition eventWrapper (eventHandler : option (socket_message → M unit))
    (event : socket_message) : M unit :=
  match eventHandler with
  | None => mret tt
  | Some handler => try_catch (handler event) (λ e, log error_level wrapper_error)
  end.

End SlackClient.

(** *** Notions used to state the properties of the client *)

(** Every cached entry holds a conversation. *)
Definition cache_wf (cd : gmap string entry) : Prop :=
  ∀ id e, cd !! id = Some e → nullish (channel e) = false.

(** The answer to the next request, if it comes *)
Definition feed (cfg : Config) (responses : list page_result) (combinedResults : list obj)
    : M unit :=
  match responses with
  | r :: responses' => pageLoaded cfg responses' combinedResults r
  | [] => mret tt
  end.

(** The requests that follow pages carrying a cursor *)
Definition next_requests (cfg : Config) (pages : list (list obj * value)) : list effect :=
  (λ p, Rest (users_list (apiPageSize cfg) (Some p.2))) <$> pages.

(** A page that ends the load: an error, or a page without cursor *)
Definition final (r : page_result) : Prop :=
  match r with
  | PageError _ => True
  | Page _ next_cursor => truthy next_cursor = false
  end.

(** The call of the completion callback that a final page triggers *)
Definition completion_of (combinedResults : list obj) (r : page_result) : effect :=
  match r with
  | PageError e => Callback (Some e) None
  | Page members _ => Callback None (Some (combinedResults ++ members)%list)
  end.

(** [user.profile?.email], as line 147 reads it *)
Definition profile_email (user : obj) : value :=
  match get user "profile" with
  | VObject profile => get profile "email"
  | _ => VUndefined
  end.

(** The record built from the payload alone (lines 141-151), before the
    fields of the stored record are merged in. *)
Definition built (user : obj) : obj :=
  let fields : obj :=
    <["slack" := VObject user]>
      (<["real_name" := get user "real_name"]>
         (<["name" := get user "name"]> {[ "id" := get user "id" ]})) in
  if nullish (profile_email user) then fields
  else <["email_address" := profile_email user]> fields.

End SlackClient.

(** ** SlackBot (Bot.mjs 177-553) *)

Module SlackBot.
Section SlackBot.
Context (E : Env) (cfg : Config).

(** [event.text ?? event.message?.text ?? ''] *)
Definition event_text (event : slack_event) : string :=
  match text event with
  | Some t => t
  | None => default "" (message_text event)
  end.

(** The mention token [`<@${id}>`] *)
Definition mention (id : string) : string := "<@" +:+ id +:+ ">".

(** [replaceBotIdWithName(event)], lines 401-413 *)
Definition replaceBotIdWithName (event : slack_event) : completion string :=
  match self cfg with
  | None => Throw TypeError
  | Some self =>
      let botId := self_user_id self in
      let botName := self_user self in
      let text := event_text event in
      if includes text (mention botId) then
        if truthy (of_option (alias cfg))
        then Normal (replace text (mention botId) (default "" (alias cfg)))
        else Normal (replace text (mention botId) ("@" +:+ botName))
      else Normal text
  end.

(** [addBotIdToMessage(event)], lines 414-420 *)
Definition addBotIdToMessage (event : slack_event) : completion string :=
  let text := event_text event in
  if truthy (VString text) && bool_decide (channel_type event = Some "im") then
    match self cfg with
    | None => Throw TypeError
    | Some self =>
        if negb (includes text (self_user_id self))
        then Normal (mention (self_user_id self) +:+ " " +:+ text)
        else Normal text
    end
  else Normal text.

(** [event.text = t] *)
Definition set_text (event : slack_event) (t : string) : slack_event :=
  SlackEvent (type event) (user event) (channel_id event) (team event) (ts event)
    (Some t) (message_text event) (channel_type event) (subtype event) (item event)
    (item_user event) (reaction event) (file_id event) (event_ts event) (user_id event).

(** Lines 486-487: the two rewritings of [message.body.event.text], in
    order; the result is the text the dispatch works with. *)
Definition preprocess (event : slack_event) : completion slack_event :=
  match addBotIdToMessage event with
  | Throw e => Throw e
  | Normal t1 =>
      let event := set_text event t1 in
      match replaceBotIdWithName event with
      | Throw e => Throw e
      | Normal t2 => Normal (set_text event t2)
      end
  end.

Definition receive (m : hubot_message) : M unit :=
  call (Receive m) (λ h, robot_receive E h m).

(** [robot.brain.userForId(id, options)] on the shared store *)
Definition userForId (id : string) (options : option obj) : M obj :=
  us ← get_users;
  '(us', u) ← lift (brain_userForId E id options us);
  set_users us';;
  mret u.

Definition is_type (event : slack_event) (t : string) : bool :=
  bool_decide (type event = Some t).

(** The call of line 527: the call is recorded, then the callee runs with
    the client in its hands; the brain and the cache are as it leaves
    them, and its effects follow the call in the history. *)
Definition call_makeSlackTextMessage (from : obj) (text : string) (rawMessage : slack_event)
    (channel : option string) : M unit := λ st,
  let called := add_effects st [MakeText text] in
  let d := makeSlackTextMessage E called from text rawMessage channel in
  (outcome d,
   {| users := brain_after d; channelData := cache_after d;
      trace := (trace called ++ effects d)%list |}).

(** Lines 438-465: acknowledgement, the guard on the acting user, and
    the resolution of the acting user through the brain (fetch on miss).
    [None]: the handler has returned at line 445. Otherwise
    [message.event], [message.body.event], the key of the acting user in
    the brain and [from]. *)
Definition resolve (message : socket_message)
    : M (option (slack_event * slack_event * string * option obj)) :=
  log debug "eventHandler";;
  when (ack message) (call Ack (socket_ack E));;
  match body_event message with
  | None => mret None
  | Some body_ev =>
      if negb (truthy (of_option (user body_ev))) then mret None
      else
        match event message with
        | None => throw TypeError
        | Some ev =>
            let key := to_property_key (of_option (user ev)) in
            us ← get_users;
            when (bool_decide (us !! key = None))
                 (userResponse ← call (Rest (users_info (user ev)))
                                      (λ h, web_users_info E h (user ev));
                  userForId key userResponse;;
                  mret tt);;
            us ← get_users;
            mret (Some (ev, body_ev, key, us !! key))
        end
  end.

(** Lines 491-536: the dispatch on [message.event.type]. [from] is the
    brain's record of the acting user, stored under [key]. *)
Definition dispatch (message : socket_message) (ev body_ev : slack_event)
    (key : string) (from : obj) : M unit :=
  try_catch
    (if is_type ev "member_joined_channel" then
       log debug "Received enter message";;
       receive (EnterMessage from (ts ev))
     else if is_type ev "member_left_channel" then
       log debug "Received leave message";;
       receive (LeaveMessage (user ev) (outer_ts message))
     else if is_type ev "reaction_added" || is_type ev "reaction_removed" then
       it ← match item body_ev with
            | Some it => mret it
            | None => throw TypeError
            end;
       let from :=
         <["room" := if strict_equal (get it "type") (VString "message")
                     then get it "channel" else VString ""]> from in
       us ← get_users;
       set_users (<[key := from]> us);;
       item_user ← match item_user body_ev with
                   | Some iu => userForId (to_property_key (get iu "id")) (Some iu)
                   | None => mret ∅
                   end;
       log debug "Received reaction message";;
       receive (ReactionMessage (type body_ev) from (reaction body_ev) item_user
                  (item body_ev) (event_ts body_ev))
     else if is_type ev "file_shared" then
       log debug "Received file_shared message";;
       receive (FileSharedMessage from (file_id body_ev) (event_ts body_ev))
     else
       log debug "Received generic message";;
       try_catch
         (call_makeSlackTextMessage from (event_text body_ev) body_ev (channel_id ev);;
          receive (SlackTextMessage from (event_text body_ev) body_ev (channel_id ev)))
         (λ e, log error_level "Dropping message due to error"))
    (λ e, log error_level "eventHandler error").

(** [eventHandler(message)], lines 438-537 *)
Definition eventHandler (message : socket_message) : M unit :=
  resolved ← resolve message;
  match resolved with
  | None => mret tt
  | Some (ev, body_ev, key, from) =>
      self ← match self cfg with
             | Some s => mret s
             | None => throw TypeError
             end;
      (* Ignore anything we sent *)
      if strict_equal (match from with Some f => get f "id" | None => VUndefined end)
                      (VString (self_user_id self))
      then mret tt
      else
        log debug "event";;
        match from with
        | None => throw TypeError
        | Some from =>
            let from := <["room" := VString (default "" (channel_id ev))]> from in
            let from := <["name" := coalesce (get from "name") VNull]> from in
            us ← get_users;
            set_users (<[key := from]> us);;
            body_ev ← lift (preprocess body_ev);
            log debug "Text";;
            log debug "Event subtype";;
            dispatch message ev body_ev key from
        end
  end.

(** [members.map((member) => ...)]: the callback is run on the members
    in turn; an exception ends the iteration. *)
Fixpoint map_members (f : obj → M obj) (members : list obj) : M (list obj) :=
  match members with
  | [] => mret []
  | member :: members' =>
      u ← f member;
      us ← map_members f members';
      mret (u :: us)
  end.

Definition cannot_fetch : string := "Can't fetch users".

(** [usersLoaded(err, res)], lines 546-552; [res] is [res.members], or
    [None] when the callback got no result. The value is the array of
    stored records, or [None] for [undefined]. *)
Definition usersLoaded (err : option error) (res : option (list obj))
    : M (option (list obj)) :=
  match err with
  | Some _ => log error_level cannot_fetch;; mret None
  | None =>
      match res with
      | None => throw TypeError
      | Some [] => log error_level cannot_fetch;; mret None
      | Some members =>
          stored ← map_members (SlackClient.updateUserInBrain E) members;
          mret (Some stored)
      end
  end.

(** The callback that [reply] maps over its messages, lines 289-299;
    [user] is [envelope.user]. *)
Definition reply_each (envelope : Envelope.t) (user : value) (message : argument) : M unit :=
  match message with
  | Function => mret tt
  | Value message =>
      if negb (strict_equal message (VString "")) then
        first ← lift (index0 (Envelope.room envelope));
        message ← (if negb (strict_equal first (VString "D")) then
                     uid ← lift (prop user "id");
                     mentioned ← lift (to_string uid);
                     said ← lift (to_string message);
                     mret (VString ("<@" +:+ mentioned +:+ ">: " +:+ said))
                   else mret message);
        SlackClient.send E envelope message
      else mret tt
  end.

End SlackBot.

(** *** Notions used to state the properties of the handler *)

(** The replacement of the bot's mention: the alias when one is
    configured, the bot's name after an at-sign otherwise. *)
Definition replacement (cfg : Config) (me : identity) : string :=
  if truthy (of_option (alias cfg)) then default "" (alias cfg) else "@" +:+ self_user me.

(** The record of the acting user once the handler has set its room and
    name (lines 482-483) *)
Definition with_room (ev : slack_event) (from : obj) : obj :=
  let from := <["room" := VString (default "" (channel_id ev))]> from in
  <["name" := coalesce (get from "name") VNull]> from.

(** The state in which the dispatch starts *)
Definition before_dispatch (ev : slack_event) (key : string) (from : obj) (st : State)
    : State :=
  {| users := <[key := with_room ev from]> (users st);
     channelData := channelData st;
     trace := (trace st ++ [Log debug "event"; Log debug "Text"; Log debug "Event subtype"])%list |}.

End SlackBot.

(** ** SlackClient.setTopic (Bot.mjs 59-72) *)

Module Topic.

Inductive request :=
| conversations_info (channel : string)
| conversations_setTopic (channel : string) (topic : string).

(** What [setTopic] does, in order *)
Inductive step :=
| Logged (l : level) (line : string)
| Requested (r : request).

(** [setTopic(conversationId, topic)]. [info] is what
    [conversations.info] answers (the [channel] field of the response);
    [set] is what [conversations.setTopic] answers, should it be asked.
    The promise of [conversations.setTopic] is returned without [await],
    so its outcome is the outcome of [setTopic]: the [catch] does not see
    it. The value is that of the [return] taken ([undefined] from the
    logger). *)
Definition setTopic (info set : completion value) (conversationId topic : string)
    : completion value * list step :=
  let started := [Logged debug "SlackClient#setTopic()"; Requested (conversations_info conversationId)] in
  let failed := (Normal VUndefined, started ++ [Logged error_level "Error setting topic in conversation"])%list in
  match info with
  | Throw _ => failed
  | Normal conversation =>
      match prop conversation "is_im" with
      | Throw _ => failed
      | Normal is_im =>
          if negb (truthy is_im)
             && negb (truthy (match prop conversation "is_mpim" with
                              | Normal is_mpim => is_mpim
                              | Throw _ => VUndefined
                              end))
          then (set, started ++ [Requested (conversations_setTopic conversationId topic)])%list
          else (Normal VUndefined,
                started ++ [Logged debug "Conversation is a DM or MPDM. These conversation types do not have topics."])%list
      end
  end.

End Topic.

(** ** The token checks of SlackBot.run (Bot.mjs 188-202) *)

Module Run.

(** [options.botToken] and [options.appToken] *)
Record options := { botToken : option string; appToken : option string }.

(** [needle.substring(0, 5)] *)
Definition needle (token : string) : string := substring 0 5 token.

(** The error line with which [run] returns before it registers any
    listener, loads users or connects; [None] when [run] goes on. *)
Definition refusal (o : options) : option string :=
  if negb (truthy (of_option (botToken o))) then Some "No botToken provided to Hubot"
  else if negb (truthy (of_option (appToken o))) then Some "No appToken provided to Hubot"
  else if negb (bool_decide (needle (default "" (botToken o)) ∈ ["xoxb-"; "xoxp-"]))
  then Some "Invalid botToken provided, please follow the upgrade instructions"
  else if negb (bool_decide (needle (default "" (appToken o)) ∈ ["xapp-"]))
  then Some "Invalid appToken provided, please follow the upgrade instructions"
  else None.

End Run.

(** ** A runtime to evaluate the adapter with *)

Module Hubot.

(** A runtime after hubot's [Brain#userForId] and [User] constructor: a
    known id returns the stored record (a new one when the options bring
    another room); an unknown id gets the record [{ id, ...options }], a
    falsy [name] being replaced by the key the record is stored under
    (hubot takes [this.id], the same string whenever the options carry no
    other id). The properties that rely on this runtime assume it. *)
Definition User (id : string) (options : option obj) : obj :=
  let u := default ∅ options ∪ {[ "id" := VString id ]} in
  if truthy (get u "name") then u else <["name" := VString id]> u.

Definition userForId (id : string) (options : option obj) (us : gmap string obj)
    : completion (gmap string obj * obj) :=
  let room := get (default ∅ options) "room" in
  match us !! id with
  | Some u =>
      if truthy room && (negb (truthy (get u "room")) || negb (strict_equal (get u "room") room))
      then Normal (<[id := User id options]> us, User id options)
      else Normal (us, u)
  | None => Normal (<[id := User id options]> us, User id options)
  end.

(** Collaborators that always succeed: the REST client answers with the
    given conversation and user, the clock shows one second per effect
    of the history. *)
Definition env (conversation : value) (user : option obj) : Env := {|
  web_conversations_info := λ _ _, Normal conversation;
  web_users_info := λ _ _, Normal user;
  web_chat_postMessage := λ _ _, Normal tt;
  Date_now := λ h, 1000 * Z.of_nat (List.length h);
  socket_ack := λ _, Normal tt;
  brain_userForId := userForId;
  robot_receive := λ _ _, Normal tt;
  makeSlackTextMessage := λ st _ _ _ _, Driven (Normal tt) (users st) (channelData st) []
|}.

(** A REST client whose every request fails *)
Definition offline (e : error) : Env := {|
  web_conversations_info := λ _ _, Throw e;
  web_users_info := λ _ _, Throw e;
  web_chat_postMessage := λ _ _, Throw e;
  Date_now := λ h, 1000 * Z.of_nat (List.length h);
  socket_ack := λ _, Normal tt;
  brain_userForId := userForId;
  robot_receive := λ _ _, Normal tt;
  makeSlackTextMessage := λ st _ _ _ _, Driven (Normal tt) (users st) (channelData st) []
|}.

Definition config (ttl : number) (self : option identity) (alias : option string) : Config :=
  {| TTL := ttl; apiPageSize := Num 100; self := self; alias := alias |}.

(** The state of a fresh adapter: [this.channelData = {}], an empty
    brain, nothing done yet. *)
Definition initial : State := {| users := ∅; channelData := ∅; trace := [] |}.

End Hubot.

(** ** Notions used to state further properties *)

Module Notions.

(** [message.text] for a message that is neither [undefined] nor [null],
    a string being its own text *)
Definition text_of (message : value) : value :=
  match message with
  | VString _ => message
  | VObject o => get o "text"
  | _ => VUndefined
  end.

(** A value that a template literal can format *)
Definition printable (v : value) : Prop := ∃ s, to_string v = Normal s.

(** The decimal numerals start with a digit. *)
Definition digit_headed (s : string) : Prop :=
  ∃ n r, s = String (pretty_N_char n) r.

(** A computation whose effects the projection [f] does not see *)
Definition unseen {A B} (f : effect → option B) (m : M A) : Prop :=
  ∀ st, omap f (trace (m st).2) = omap f (trace st).

Definition request_of (e : effect) : option rest_call :=
  match e with Rest c => Some c | _ => None end.

(** The effects of the handler up to the acknowledgement *)
Definition acknowledgement (message : socket_message) : list effect :=
  Log debug "eventHandler" :: if ack message then [Ack] else [].

(** The event types with a branch of their own in the dispatch *)
Definition handled_types : list string :=
  [ "member_joined_channel"; "member_left_channel"; "reaction_added"; "reaction_removed";
    "file_shared" ].



End Notions.

(** ** Sample data *)

Module Sample.
Import SlackClient SlackBot.

Definition room_C1 : Envelope.t := Envelope.Build (VString "C1") VUndefined None.

Definition general : value := VObject {[ "id" := VString "C1" ]}.

Definition cached_general : State :=
  {| users := ∅; channelData := {[ "C1" := Entry general 0 ]}; trace := [] |}.

Definition alice : obj := {[ "id" := VString "U1" ]}.
Definition bob : obj := {[ "id" := VString "U2" ]}.
Definition carol : obj := {[ "id" := VString "U3" ]}.

Definition alice_stored : obj :=
  <["toString" := VString "she/her"]>
    (<["karma" := VNumber (Num 5)]>
       (<["name" := VString "alice"]> {[ "id" := VString "U1" ]})).

Definition alice_sighted : obj :=
  <["real_name" := VString "Alice A."]>
    (<["name" := VString "alice"]> {[ "id" := VString "U1" ]}).

Definition hubot_U123 : identity := Identity "U123" "hubot".

Definition hello_im : slack_event :=
  SlackEvent (Some "message") (Some "U2") (Some "D42") None (Some "1700000000.000100")
    (Some "hello") None (Some "im") None None None None None None None.

Definition bob_record : obj := <["name" := VString "bob"]> {[ "id" := VString "U2" ]}.
Definition hubot_record : obj := <["name" := VString "hubot"]> {[ "id" := VString "U123" ]}.

Definition brain : State :=
  {| users := <["U123" := hubot_record]> {[ "U2" := bob_record ]}; channelData := ∅; trace := [] |}.

Definition membership_event (type user : string) : slack_event :=
  SlackEvent (Some type) (Some user) (Some "C7") (Some "T1") (Some "1700000001.000100")
    None None (Some "channel") None None None None None None None.

(** A socket message whose envelope carries a time stamp of its own *)
Definition membership_message (type user : string) : socket_message :=
  SocketMessage true (Some (membership_event type user)) (Some (membership_event type user))
    (Some "1700000009.000900").

Definition acknowledged : State :=
  add_effects brain [Log debug "eventHandler"; Ack].

Definition slack_cfg : Config :=
  Hubot.config (Num 300000) (Some hubot_U123) None.

End Sample.

Module Sample2.
Import SlackClient SlackBot Sample.


(** A socket message with acknowledgement whose two event fields hold
    the same event *)
Definition wrap (event : slack_event) : socket_message :=
  SocketMessage true (Some event) (Some event) None.


Definition reaction_event (item : option obj) : slack_event :=
  SlackEvent (Some "reaction_added") (Some "U2") None None None None None None None
    item None (Some "thumbsup") None (Some "1700000003.000300") None.

Definition file_event : slack_event :=
  SlackEvent (Some "file_shared") (Some "U2") (Some "C7") None None None None None None
    None None None (Some "F1") (Some "1700000002.000200") (Some "U2").

(** An event that names no acting user *)
Definition anonymous_event : slack_event :=
  SlackEvent (Some "message") None (Some "C7") None None (Some "hello") None None None
    None None None None None None.

Definition unauthenticated : Config := Hubot.config (Num 300000) None None.

Definition twice_mentioned : slack_event := set_text hello_im "hey <@U123>, ping <@U123>".

Definition direct_conversation : obj := {[ "is_im" := VBool true ]}.

Definition public_conversation : obj := {[ "is_channel" := VBool true ]}.

End Sample2.

(** * Properties *)

(** Unfolding of the monad's operations *)
Ltac run :=
  repeat (progress (unfold mbind, mret, M_bind, M_ret, throw, try_catch, emit, log, call, lift,
                    when, get_users, set_users, get_channelData, set_channelData in *; simpl in *)).

Lemma rest_calls_app (t1 t2 : list effect) :
  rest_calls (t1 ++ t2)%list = (rest_calls t1 ++ rest_calls t2)%list.
Proof. apply omap_app. Qed.

Lemma received_app (t1 t2 : list effect) :
  received (t1 ++ t2)%list = (received t1 ++ received t2)%list.
Proof. apply omap_app. Qed.

(** ** Start-up *)

Module StartupFacts.
Import Startup.

(** Nothing is strictly equal to [NaN]. *)
Lemma strict_equal_NaN (v : value) : strict_equal v (VNumber NaN) = false.
Proof. destruct v as [| | |[|]| |]; reflexivity. Qed.

(** The check of lines 173-175 never fires: the module always loads, with
    whatever [parseInt] returned. *)
Lemma module_init_never_throws (env : option string) :
  module_init env = Normal (CONVERSATION_CACHE_TTL_MS env).
Proof. unfold module_init. by rewrite strict_equal_NaN. Qed.

(** An absent (or empty) variable gives the default of five minutes. *)
Lemma module_init_default :
  module_init None = Normal (Num 300000) ∧ module_init (Some "") = Normal (Num 300000).
Proof. split; reflexivity. Qed.

(** A value that [parseInt] reads as the integer [n] (one that a double
    holds exactly) becomes the TTL. *)
Lemma module_init_parsed (s : string) (n : Z) :
  s ≠ "" → parseInt s = Num n → (Z.abs n ≤ 2 ^ 53)%Z →
  module_init (Some s) = Normal (Num n).
Proof.
  intros Hs Hn _. rewrite module_init_never_throws. unfold CONVERSATION_CACHE_TTL_MS. simpl.
  destruct (String.eqb_spec s ""); [done|]. cbn [negb]. by rewrite Hn.
Qed.

(** C1 (as the code behaves): with HUBOT_SLACK_CONVERSATION_CACHE_TTL_MS set
    to "abc", a value [parseInt] cannot read, module initialisation does
    not throw; the module loads with the constant [NaN]. *)
Theorem module_init_unparseable :
  parseInt "abc" = NaN ∧ module_init (Some "abc") = Normal NaN.
Proof. split; reflexivity. Qed.

End StartupFacts.

(** ** Objects *)

(** A spread lays the properties of [v] over [base]. *)
Lemma spread_lookup (v : value) (base : obj) (k : string) :
  spread v base !! k =
  match own_enumerable v !! k with
  | Some x => Some x
  | None => base !! k
  end.
Proof.
  unfold spread, for_in.
  apply (map_fold_weak_ind
           (λ r m, r !! k = match m !! k with Some x => Some x | None => base !! k end)).
  - by rewrite lookup_empty.
  - intros i x m r _ IH. destruct (decide (i = k)) as [->|Hne].
    + by rewrite !lookup_insert_eq.
    + by rewrite !lookup_insert_ne.
Qed.

(** ** Outbound gateway: [SlackClient.send] *)

Module SendFacts.
Import SlackClient Sample Notions.

(** What [send] does once the room is resolved and the message is an
    object: one debug line, one [chat.postMessage] request with the
    payload of lines 81-86, and one more line whatever the outcome. *)
Lemma send_object (E : Env) (envelope : Envelope.t) (message : obj) (st : State) :
  nullish (room_of envelope) = false →
  printable (room_of envelope) →
  printable (VObject message) →
  let payload := messageOptions (room_of envelope) (get message "text")
                   (thread_ts_of envelope) (VObject message) in
  send E envelope (VObject message) st =
  (Normal tt,
   add_effects st
     [Log debug "SlackClient#send()"; Rest (chat_postMessage payload);
      match web_chat_postMessage E (trace st ++ [Log debug "SlackClient#send()"])%list payload with
      | Normal _ => Log debug "Successfully sent message"
      | Throw _ => Log error_level "SlackClient#send() error"
      end]).
Proof.
  intros Hroom [r Hr] [m Hm] payload. unfold send. rewrite Hroom, Hr, Hm. run. fold payload.
  destruct (web_chat_postMessage E _ payload) as [[]|e]; unfold add_effects; simpl;
    by rewrite <- !app_assoc.
Qed.

(** A room or a message that the debug line of line 80 cannot convert to
    a string makes [send] throw before it logs or requests anything. *)
Lemma send_unprintable (E : Env) (envelope : Envelope.t) (message : value) (st : State) :
  nullish (room_of envelope) = false →
  ¬ printable (room_of envelope) ∨ ¬ printable message →
  send E envelope message st = (Throw TypeError, st).
Proof.
  intros Hroom Hno. unfold send. rewrite Hroom. cbv [mbind M_bind lift].
  destruct (to_string (room_of envelope)) as [r|e] eqn:Hr.
  - destruct (to_string message) as [m|e] eqn:Hm.
    + destruct Hno as [Hno|Hno]; destruct Hno; by eexists.
    + unfold to_string in Hm. destruct message as [| | | | |o]; try done.
      destruct (o !! "toString"); [by injection Hm as <-|done].
  - unfold to_string in Hr. destruct (room_of envelope) as [| | | | |o]; try done.
    destruct (o !! "toString"); [by injection Hr as <-|done].
Qed.

(** C2 (amended): with a resolvable room and an object-valued message,
    both of which the debug line of line 80 can convert to a string,
    [send] hands exactly one payload to [chat.postMessage]; every field
    carried on the message object is in the payload with the message's
    value, [channel] included; the computed defaults (channel = room, text,
    thread_ts) fill the fields the message does not carry. So the payload's
    channel is the resolved room when the message has no [channel] field of
    its own. *)
Theorem send_payload (E : Env) (envelope : Envelope.t) (message : obj) (st : State) :
  nullish (room_of envelope) = false →
  printable (room_of envelope) →
  printable (VObject message) →
  ∃ st' payload,
    send E envelope (VObject message) st = (Normal tt, st') ∧
    rest_calls (trace st') = (rest_calls (trace st) ++ [chat_postMessage payload])%list ∧
    (∀ k v, message !! k = Some v → payload !! k = Some v) ∧
    (∀ k, message !! k = None →
          payload !! k =
          defaults (room_of envelope) (get message "text") (thread_ts_of envelope) !! k) ∧
    (message !! "channel" = None → payload !! "channel" = Some (room_of envelope)).
Proof.
  intros Hroom Hr Hm. eexists _, _. split; [by apply send_object|].
  split.
  { simpl. rewrite rest_calls_app. simpl.
    by destruct (web_chat_postMessage E _ _) as [[]|e]. }
  unfold messageOptions.
  split; [|split].
  - intros k v Hk. by rewrite spread_lookup; simpl; rewrite Hk.
  - intros k Hk. by rewrite spread_lookup; simpl; rewrite Hk.
  - intros Hk. rewrite spread_lookup; simpl. rewrite Hk. unfold defaults.
    do 2 (rewrite lookup_insert_ne by done). apply lookup_insert_eq.
Qed.

Lemma send_payload_witness :
  nullish (room_of room_C1) = false ∧
  to_string (room_of room_C1) = Normal "C1" ∧
  to_string (VObject {[ "text" := VString "hi" ]}) = Normal "[object Object]" ∧
  ∃ st' payload,
    send (Hubot.env VNull None) room_C1 (VObject {[ "text" := VString "hi" ]}) Hubot.initial
      = (Normal tt, st') ∧
    rest_calls (trace st') = [chat_postMessage payload] ∧
    payload !! "channel" = Some (VString "C1").
Proof.
  split; [reflexivity|]. split; [reflexivity|]. split; [reflexivity|].
  destruct (send_payload (Hubot.env VNull None) room_C1 {[ "text" := VString "hi" ]}
              Hubot.initial eq_refl) as (st' & payload & Hs & Hr & _ & _ & Hc);
    [eexists; reflexivity|eexists; reflexivity|].
  exists st', payload. split; [exact Hs|]. split; [exact Hr|].
  apply Hc. reflexivity.
Defined.

(** C2 (as stated) fails: a message object that carries its own [channel]
    is posted to that channel, not to the room resolved from the
    envelope. *)
Lemma send_channel_overridden :
  let message : obj := <["text" := VString "hi"]> {[ "channel" := VString "C2" ]} in
  room_of room_C1 = VString "C1" ∧
  ∃ payload,
    rest_calls (trace (send (Hubot.env VNull None) room_C1 (VObject message) Hubot.initial).2)
      = [chat_postMessage payload] ∧
    payload !! "channel" = Some (VString "C2") ∧
    payload !! "channel" ≠ Some (room_of room_C1).
Proof.
  intros message. split; [reflexivity|].
  eexists. split; [vm_compute; reflexivity|].
  split; [by vm_compute|]. vm_compute. discriminate.
Qed.

(** C9: an envelope with neither [room] nor [id] makes [send] log the
    error and return normally: no REST request, nothing else changed. *)
Theorem send_without_room (E : Env) (envelope : Envelope.t) (message : value) (st : State) :
  Envelope.room envelope = VUndefined →
  Envelope.id envelope = VUndefined →
  ∃ st',
    send E envelope message st = (Normal tt, st') ∧
    trace st' = (trace st ++ [Log error_level no_room])%list ∧
    rest_calls (trace st') = rest_calls (trace st) ∧
    errors_logged (trace st') = (errors_logged (trace st) ++ [no_room])%list ∧
    users st' = users st ∧ channelData st' = channelData st.
Proof.
  intros Hroom Hid. unfold send, room_of. rewrite Hroom, Hid. simpl. run.
  eexists. split; [reflexivity|]. simpl.
  split; [done|]. split; [|split; [|done]].
  - rewrite rest_calls_app. simpl. by rewrite app_nil_r.
  - unfold errors_logged. by rewrite omap_app.
Qed.

Lemma send_without_room_witness :
  ∃ st',
    send (Hubot.env VNull None) (Envelope.Build VUndefined VUndefined None) (VString "hi")
      Hubot.initial = (Normal tt, st') ∧
    trace st' = [Log error_level no_room] ∧
    rest_calls (trace st') = [].
Proof.
  destruct (send_without_room (Hubot.env VNull None) (Envelope.Build VUndefined VUndefined None)
              (VString "hi") Hubot.initial eq_refl eq_refl) as (st' & Hs & Ht & Hr & _).
  exists st'. split; [exact Hs|]. split; [exact Ht | exact Hr].
Defined.

End SendFacts.

(** ** Conversation cache: [SlackClient.fetchConversation] *)

Module CacheFacts.
Import SlackClient Sample.

(** With an integer TTL the test of lines 126-127 reads: there is an
    entry with a channel, younger than the TTL. *)
Lemma valid_spec (t ttl : Z) (cached : option entry) :
  valid (number_sub (Num t) (Num ttl)) cached = true ↔
  ∃ e, cached = Some e ∧ nullish (channel e) = false ∧ (t - updated e < ttl)%Z.
Proof.
  unfold valid. destruct cached as [[c u]|]; simpl.
  - rewrite andb_true_iff, negb_true_iff, Z.ltb_lt. split.
    + intros [Hc Hu]. exists (Entry c u). simpl. repeat split; [done|lia].
    + intros (e & [= <-] & Hc & Hu). simpl in *. split; [done|lia].
  - split; [done|]. by intros (e & ? & _).
Qed.

(** A TTL of [NaN] (what an unparseable configuration leaves behind)
    makes every entry invalid. *)
Lemma valid_NaN (t : Z) (cached : option entry) :
  valid (number_sub (Num t) NaN) cached = false.
Proof. unfold valid. destruct cached; simpl; by rewrite ?andb_false_r. Qed.

(** Cache hit: the stored conversation, the state untouched. *)
Lemma fetchConversation_hit (E : Env) (cfg : Config) (id : string) (st : State) (e : entry) :
  channelData st !! id = Some e →
  valid (number_sub (Num (Date_now E (trace st))) (TTL cfg)) (Some e) = true →
  fetchConversation E cfg id st = (Normal (channel e), st).
Proof.
  intros He Hv. unfold fetchConversation, now. run. by rewrite He, Hv.
Qed.

(** Miss or expiry: the entry is dropped, one request is made, and its
    answer decides what is stored and returned. *)
Lemma fetchConversation_miss (E : Env) (cfg : Config) (id : string) (st : State) :
  valid (number_sub (Num (Date_now E (trace st))) (TTL cfg)) (channelData st !! id) = false →
  let t' := (trace st ++ [Rest (conversations_info id)])%list in
  fetchConversation E cfg id st =
  match web_conversations_info E (trace st) id with
  | Normal c =>
      (Normal c,
       {| users := users st;
          channelData := if nullish c then delete id (channelData st)
                         else <[id := Entry c (Date_now E t')]> (channelData st);
          trace := t' |})
  | Throw err =>
      (Throw err,
       {| users := users st; channelData := delete id (channelData st); trace := t' |})
  end.
Proof.
  intros Hv t'. unfold fetchConversation, now. run. rewrite Hv.
  destruct (channelData st !! id) as [e|] eqn:He; simpl.
  - destruct (web_conversations_info E (trace st) id) as [c|err]; [|done].
    destruct (nullish c); simpl; [done|]. by rewrite insert_delete_eq.
  - rewrite (delete_id _ _ He).
    destruct (web_conversations_info E (trace st) id) as [c|err]; [|by destruct st].
    destruct (nullish c); simpl; [by destruct st|done].
Qed.

(** With a TTL of [NaN] every call makes a request. *)
Lemma fetchConversation_NaN (E : Env) (cfg : Config) (id : string) (st : State) :
  TTL cfg = NaN →
  rest_calls (trace (fetchConversation E cfg id st).2) =
  (rest_calls (trace st) ++ [conversations_info id])%list.
Proof.
  intros Httl.
  rewrite fetchConversation_miss by (rewrite Httl; apply valid_NaN).
  destruct (web_conversations_info E (trace st) id); simpl; by rewrite rest_calls_app.
Qed.

(** An entry that passes the test is an entry. *)
Lemma valid_Some (x : number) (cached : option entry) :
  valid x cached = true → ∃ e, cached = Some e.
Proof. destruct cached; [eauto|done]. Qed.

(** C5 (amended): within the TTL of a stored entry (an entry holds a
    non-null channel, see C10) [fetchConversation] returns the stored
    conversation and does nothing else (no REST request). With no entry, or an entry whose TTL has elapsed, it removes
    the entry, makes exactly one [conversations.info] request and returns
    the response's channel; the channel is stored, with the time read
    after the request, when it is not null; a null or undefined channel is
    returned and nothing is stored. When the request fails the failure
    reaches the caller and nothing is stored. *)
Theorem fetchConversation_cache (E : Env) (cfg : Config) (id : string) (st : State) (ttl : Z) :
  TTL cfg = Num ttl →
  let t := Date_now E (trace st) in
  (∀ e, channelData st !! id = Some e → nullish (channel e) = false →
        (t - updated e < ttl)%Z →
        fetchConversation E cfg id st = (Normal (channel e), st)) ∧
  ((channelData st !! id = None ∨
    ∃ e, channelData st !! id = Some e ∧ (ttl ≤ t - updated e)%Z) →
   ∃ r st',
     fetchConversation E cfg id st = (r, st') ∧
     users st' = users st ∧
     trace st' = (trace st ++ [Rest (conversations_info id)])%list ∧
     match web_conversations_info E (trace st) id with
     | Normal c =>
         r = Normal c ∧
         channelData st' =
           if nullish c then delete id (channelData st)
           else <[id := Entry c (Date_now E (trace st'))]> (channelData st)
     | Throw err => r = Throw err ∧ channelData st' = delete id (channelData st)
     end).
Proof.
  intros Httl t. split.
  - intros e He Hc Ht. apply fetchConversation_hit; [done|].
    rewrite Httl. apply valid_spec. eauto.
  - intros Hmiss.
    assert (valid (number_sub (Num t) (TTL cfg)) (channelData st !! id) = false) as Hv.
    { apply not_true_is_false. rewrite Httl, valid_spec. intros (e & He & _ & Ht).
      destruct Hmiss as [Hn|(e' & He' & Ht')]; [congruence|].
      rewrite He in He'. injection He' as <-. lia. }
    pose proof (fetchConversation_miss E cfg id st Hv) as Hf. simpl in Hf.
    destruct (web_conversations_info E (trace st) id) as [c|err];
      eexists _, _; (split; [exact Hf|]); simpl; done.
Qed.

Lemma fetchConversation_cache_witness :
  let E := Hubot.env general None in
  let cfg := Hubot.config (Num 300000) None None in
  fetchConversation E cfg "C1" cached_general = (Normal general, cached_general) ∧
  (∃ r st',
     fetchConversation E cfg "C1" Hubot.initial = (r, st') ∧
     users st' = ∅ ∧
     trace st' = [Rest (conversations_info "C1")] ∧
     r = Normal general ∧
     channelData st' = <["C1" := Entry general 1000]> ∅) ∧
  (∃ r st',
     fetchConversation (Hubot.offline (Error "channel_not_found")) cfg "C1" Hubot.initial
       = (r, st') ∧
     trace st' = [Rest (conversations_info "C1")] ∧
     r = Throw (Error "channel_not_found") ∧
     channelData st' = delete "C1" ∅).
Proof.
  intros E cfg.
  destruct (fetchConversation_cache E cfg "C1" cached_general 300000 eq_refl) as [Hhit _].
  destruct (fetchConversation_cache E cfg "C1" Hubot.initial 300000 eq_refl) as [_ Hmiss].
  destruct (fetchConversation_cache (Hubot.offline (Error "channel_not_found")) cfg "C1"
              Hubot.initial 300000 eq_refl) as [_ Hfail].
  split; [|split].
  - apply (Hhit (Entry general 0)); [reflexivity|reflexivity|simpl; lia].
  - destruct (Hmiss (or_introl eq_refl)) as (r & st' & Hf & Hu & Ht & Hr & Hc).
    exists r, st'. rewrite Ht in Hc. repeat split; assumption.
  - destruct (Hfail (or_introl eq_refl)) as (r & st' & Hf & _ & Ht & Hr & Hc).
    exists r, st'. repeat split; assumption.
Defined.

(** C5 (as stated) fails: after a miss whose response carries no channel,
    the result is returned but nothing has been stored. *)
Lemma fetchConversation_null_not_stored :
  let E := Hubot.env VNull None in
  let cfg := Hubot.config (Num 300000) None None in
  (fetchConversation E cfg "C1" Hubot.initial).1 = Normal VNull ∧
  rest_calls (trace (fetchConversation E cfg "C1" Hubot.initial).2)
    = [conversations_info "C1"] ∧
  channelData (fetchConversation E cfg "C1" Hubot.initial).2 !! "C1" = None.
Proof. intros E cfg. repeat split; by vm_compute. Qed.

(** C10: the cache starts empty, and every entry [fetchConversation]
    leaves in [channelData] is an entry that was already there or the entry
    of the requested conversation, made of the non-null channel of the
    response and the time read when it was stored; so every entry holds a
    non-null channel. A response with a null channel that follows a request
    is returned as it is, leaves no entry, and the next call for the same
    conversation makes a request again. *)
Theorem fetchConversation_stores_conversations :
  cache_wf (channelData Hubot.initial) ∧
  ∀ (E : Env) (cfg : Config) (id : string) (st : State),
    cache_wf (channelData st) →
    ∃ r st',
      fetchConversation E cfg id st = (r, st') ∧
      cache_wf (channelData st') ∧
      (∀ k e, channelData st' !! k = Some e →
         channelData st !! k = Some e ∨
         (k = id ∧ nullish (channel e) = false ∧
          web_conversations_info E (trace st) id = Normal (channel e) ∧
          updated e = Date_now E (trace st'))) ∧
      (∀ c, trace st' = (trace st ++ [Rest (conversations_info id)])%list →
         web_conversations_info E (trace st) id = Normal c →
         nullish c = true →
         r = Normal c ∧ channelData st' !! id = None ∧
         ∃ r2 st2,
           fetchConversation E cfg id st' = (r2, st2) ∧
           trace st2 = (trace st' ++ [Rest (conversations_info id)])%list).
Proof.
  split; [intros k e; simpl; by rewrite lookup_empty|].
  intros E cfg id st Hwf.
  destruct (valid (number_sub (Num (Date_now E (trace st))) (TTL cfg)) (channelData st !! id))
    eqn:Hv.
  - destruct (valid_Some _ _ Hv) as [e He]. rewrite He in Hv.
    exists (Normal (channel e)), st.
    split; [by apply fetchConversation_hit|]. split; [done|]. split; [by left|].
    intros c Ht _ _. exfalso.
    apply (f_equal List.length) in Ht. rewrite length_app in Ht. simpl in Ht. lia.
  - pose proof (fetchConversation_miss E cfg id st Hv) as Hf. simpl in Hf.
    destruct (web_conversations_info E (trace st) id) as [c|err] eqn:Hresp.
    + eexists _, _. split; [exact Hf|]. simpl.
      destruct (nullish c) eqn:Hc.
      * split; [|split].
        -- intros k e [_ Hk]%lookup_delete_Some. by eapply Hwf.
        -- intros k e [_ Hk]%lookup_delete_Some. by left.
        -- intros c' _ [= <-] _. split; [done|]. split; [apply lookup_delete_eq|].
           match goal with |- context [fetchConversation E cfg id ?s] => set (st1 := s) end.
           assert (valid (number_sub (Num (Date_now E (trace st1))) (TTL cfg))
                     (channelData st1 !! id) = false) as Hv1.
           { unfold st1. simpl. by rewrite lookup_delete_eq. }
           pose proof (fetchConversation_miss E cfg id st1 Hv1) as Hf1. cbv zeta in Hf1.
           destruct (web_conversations_info E (trace st1) id);
             eexists _, _; (split; [exact Hf1|done]).
      * split; [|split].
        -- intros k e. destruct (decide (k = id)) as [->|Hne].
           ++ rewrite lookup_insert_eq. by intros [= <-].
           ++ rewrite lookup_insert_ne by done. apply Hwf.
        -- intros k e. destruct (decide (k = id)) as [->|Hne].
           ++ rewrite lookup_insert_eq. intros [= <-]. right. simpl. done.
           ++ rewrite lookup_insert_ne by done. by left.
        -- intros c' _ [= <-] Hc'. congruence.
    + eexists _, _. split; [exact Hf|]. simpl. split; [|split].
      * intros k e [_ Hk]%lookup_delete_Some. by eapply Hwf.
      * intros k e [_ Hk]%lookup_delete_Some. by left.
      * intros c _ [=].
Qed.

Lemma fetchConversation_stores_conversations_witness :
  let E := Hubot.env VNull None in
  let cfg := Hubot.config (Num 300000) None None in
  ∃ r st',
    fetchConversation E cfg "C1" Hubot.initial = (r, st') ∧
    cache_wf (channelData st') ∧
    r = Normal VNull ∧ channelData st' !! "C1" = None ∧
    ∃ r2 st2,
      fetchConversation E cfg "C1" st' = (r2, st2) ∧
      trace st2 = (trace st' ++ [Rest (conversations_info "C1")])%list.
Proof.
  intros E cfg.
  destruct fetchConversation_stores_conversations as [Hinit Hstep].
  destruct (Hstep E cfg "C1" Hubot.initial Hinit) as (r & st' & Hf & Hwf & _ & Hnull).
  exists r, st'. split; [exact Hf|]. split; [exact Hwf|].
  assert (trace st' = [Rest (conversations_info "C1")]) as Ht.
  { change st' with (r, st').2. rewrite <- Hf. reflexivity. }
  destruct (Hnull VNull Ht eq_refl eq_refl) as (Hr & Hc & Hnext).
  split; [exact Hr|]. split; [exact Hc|exact Hnext].
Defined.

End CacheFacts.

(** ** User directory: [SlackClient.loadUsers] *)

Module LoadUsersFacts.
Import SlackClient Sample.

(** The body of [pageLoaded], lines 98-113 *)
Lemma pageLoaded_unfold (cfg : Config) (responses : list page_result)
    (combinedResults : list obj) (result : page_result) :
  pageLoaded cfg responses combinedResults result =
  match result with
  | PageError e => emit (Callback (Some e) None)
  | Page members next_cursor =>
      if truthy next_cursor then
        emit (Rest (users_list (apiPageSize cfg) (Some next_cursor)));;
        feed cfg responses (combinedResults ++ members)%list
      else emit (Callback None (Some (combinedResults ++ members)%list))
  end.
Proof. by destruct responses. Qed.

Lemma loadUsers_feed (cfg : Config) (responses : list page_result) :
  loadUsers cfg responses =
  (emit (Rest (users_list (apiPageSize cfg) None));; feed cfg responses []).
Proof. reflexivity. Qed.

Lemma add_effects_app (st : State) (es1 es2 : list effect) :
  add_effects (add_effects st es1) es2 = add_effects st (es1 ++ es2).
Proof. unfold add_effects. simpl. by rewrite app_assoc. Qed.

Lemma feed_pages (cfg : Config) (pages : list (list obj * value)) (last : page_result)
    (rest : list page_result) (combinedResults : list obj) (st : State) :
  Forall (λ p, truthy p.2 = true) pages →
  final last →
  feed cfg ((uncurry Page <$> pages) ++ last :: rest)%list combinedResults st =
  (Normal tt,
   add_effects st
     (next_requests cfg pages ++
      [completion_of (combinedResults ++ List.concat (fst <$> pages)) last])%list).
Proof.
  intros Hpages Hlast. revert combinedResults st.
  induction Hpages as [|[members cursor] pages Hc _ IH]; intros combinedResults st.
  - simpl. rewrite app_nil_r, pageLoaded_unfold.
    destruct last as [e|members cursor]; simpl in *; [done|].
    by rewrite Hlast.
  - simpl in *. rewrite pageLoaded_unfold, Hc.
    specialize (IH (combinedResults ++ members)%list
                   (add_effects st [Rest (users_list (apiPageSize cfg) (Some cursor))])).
    unfold mbind, M_bind, emit.
    fold (add_effects st [Rest (users_list (apiPageSize cfg) (Some cursor))]).
    etrans; [apply IH|].
    rewrite add_effects_app. simpl. by rewrite <- app_assoc.
Qed.

(** C8: when the REST client answers the successive requests with pages
    that each carry a cursor and then with a page without cursor,
    [loadUsers] asks for the first page, then for one page per cursor
    received (in order, each request carrying the cursor of the page
    before), and finally calls the callback once, without error, with the
    members of all pages in order. When instead a request fails, the
    callback is called once with that error and no result, and no request
    follows. *)
Theorem loadUsers_pages (cfg : Config) (pages : list (list obj * value))
    (rest : list page_result) (st : State) :
  Forall (λ p, truthy p.2 = true) pages →
  (∀ members next_cursor,
     truthy next_cursor = false →
     loadUsers cfg ((uncurry Page <$> pages) ++ Page members next_cursor :: rest)%list st =
     (Normal tt,
      add_effects st
        (Rest (users_list (apiPageSize cfg) None) :: next_requests cfg pages ++
         [Callback None (Some (List.concat (fst <$> pages) ++ members)%list)])%list)) ∧
  (∀ e,
     loadUsers cfg ((uncurry Page <$> pages) ++ PageError e :: rest)%list st =
     (Normal tt,
      add_effects st
        (Rest (users_list (apiPageSize cfg) None) :: next_requests cfg pages ++
         [Callback (Some e) None])%list)).
Proof.
  intros Hpages. split.
  - intros members next_cursor Hc. rewrite loadUsers_feed.
    unfold mbind, M_bind, emit. fold (add_effects st [Rest (users_list (apiPageSize cfg) None)]).
    rewrite (feed_pages cfg pages (Page members next_cursor)) by done.
    by rewrite add_effects_app.
  - intros e. rewrite loadUsers_feed.
    unfold mbind, M_bind, emit. fold (add_effects st [Rest (users_list (apiPageSize cfg) None)]).
    rewrite (feed_pages cfg pages (PageError e)) by done.
    by rewrite add_effects_app.
Qed.

Lemma loadUsers_pages_witness :
  let cfg := Hubot.config (Num 300000) None None in
  loadUsers cfg [Page [alice] (VString "c1"); Page [bob] (VString "c2"); Page [carol] (VString "")]
    Hubot.initial =
  (Normal tt,
   add_effects Hubot.initial
     [Rest (users_list (Num 100) None);
      Rest (users_list (Num 100) (Some (VString "c1")));
      Rest (users_list (Num 100) (Some (VString "c2")));
      Callback None (Some [alice; bob; carol])]) ∧
  loadUsers cfg [Page [alice] (VString "c1"); PageError (Error "ratelimited"); Page [carol] VNull]
    Hubot.initial =
  (Normal tt,
   add_effects Hubot.initial
     [Rest (users_list (Num 100) None);
      Rest (users_list (Num 100) (Some (VString "c1")));
      Callback (Some (Error "ratelimited")) None]).
Proof.
  intros cfg. split.
  - assert (Forall (λ p : list obj * value, truthy p.2 = true)
              [([alice], VString "c1"); ([bob], VString "c2")]) as Hp.
    { repeat constructor. }
    apply (proj1 (loadUsers_pages cfg [([alice], VString "c1"); ([bob], VString "c2")] []
                    Hubot.initial Hp) [carol] (VString "") eq_refl).
  - assert (Forall (λ p : list obj * value, truthy p.2 = true) [([alice], VString "c1")]) as Hp.
    { repeat constructor. }
    apply (proj2 (loadUsers_pages cfg [([alice], VString "c1")] [Page [carol] VNull]
                    Hubot.initial Hp) (Error "ratelimited")).
Defined.

End LoadUsersFacts.

(** ** User directory: [SlackClient.updateUserInBrain] *)

Module UserDirectoryFacts.
Import SlackClient Sample.

(** The loop of lines 153-158 keeps what [base] has and adds the
    properties of [old] whose name is not [in] the record: neither an own
    property nor a name inherited from [Object.prototype]. *)
Lemma merge_lookup (old base : obj) (k : string) :
  for_in old
    (λ key value newUser,
       if negb (has_property key newUser) then <[key := value]> newUser else newUser)
    base !! k =
  match base !! k with
  | Some v => Some v
  | None => if inherited k then None else old !! k
  end.
Proof.
  revert k. unfold for_in.
  apply (map_fold_weak_ind
           (λ r m, ∀ k, r !! k = match base !! k with
                                 | Some v => Some v
                                 | None => if inherited k then None else m !! k
                                 end)).
  - intros k. rewrite lookup_empty. by destruct (base !! k), (inherited k).
  - intros i x m r Hi IH k. unfold has_property. rewrite (IH i), Hi.
    destruct (decide (i = k)) as [->|Hne].
    + destruct (base !! k) as [v|] eqn:Hb; simpl.
      * by rewrite IH, Hb.
      * destruct (inherited k) eqn:Hk; simpl.
        -- by rewrite IH, Hb, Hk.
        -- by rewrite !lookup_insert_eq.
    + assert (∀ r' : obj, r' !! k = r !! k →
                r' !! k = match base !! k with
                          | Some v => Some v
                          | None => if inherited k then None else <[i:=x]> m !! k
                          end) as Hgoal.
      { intros r' ->. rewrite IH. by rewrite lookup_insert_ne. }
      destruct (base !! i); simpl; [by apply Hgoal|].
      destruct (inherited i); simpl; [by apply Hgoal|].
      apply Hgoal. by rewrite lookup_insert_ne.
Qed.

Lemma slack_copy (user : obj) :
  for_in user (λ key value slack, <[key := value]> slack) ∅ = user.
Proof.
  apply map_eq. intros k.
  change (spread (VObject user) ∅ !! k = user !! k).
  rewrite spread_lookup. simpl. rewrite lookup_empty. by destruct (user !! k).
Qed.

Lemma newUser_fresh (user : obj) : newUser (VObject user) None = Normal (built user).
Proof.
  unfold newUser, built, profile_email. simpl. rewrite slack_copy. f_equal.
  apply map_eq. intros k.
  destruct (get user "profile") as [| | | | |profile]; simpl;
    try (by rewrite insert_insert_eq, insert_empty).
  destruct (nullish (get profile "email")); simpl.
  - by rewrite insert_insert_eq, insert_empty.
  - rewrite insert_insert_ne by done. rewrite insert_insert_eq.
    rewrite insert_insert_ne by done. by rewrite insert_empty.
Qed.

(** The merged record: the fields built from the payload, and every field
    of the stored record that is not [in] the built record. *)
Lemma newUser_merged (user old : obj) :
  ∃ merged,
    newUser (VObject user) (Some old) = Normal merged ∧
    ∀ k, merged !! k = match built user !! k with
                       | Some v => Some v
                       | None => if inherited k then None else old !! k
                       end.
Proof.
  pose proof (newUser_fresh user) as Hfresh. unfold newUser in *. simpl in *.
  injection Hfresh as Hfresh. rewrite Hfresh.
  eexists. split; [reflexivity|]. intros k. apply merge_lookup.
Qed.

(** The fields the built record takes from the payload *)
Lemma built_fields (user : obj) :
  built user !! "id" = Some (get user "id") ∧
  built user !! "name" = Some (get user "name") ∧
  built user !! "real_name" = Some (get user "real_name") ∧
  built user !! "slack" = Some (VObject user) ∧
  built user !! "email_address" =
    (if nullish (profile_email user) then None else Some (profile_email user)).
Proof.
  unfold built. destruct (nullish (profile_email user)); repeat split;
    repeat (first [rewrite lookup_insert_eq | rewrite lookup_insert_ne by done
                  | rewrite lookup_singleton_eq | rewrite lookup_singleton_ne by done]);
    done.
Qed.

(** The record is handed to the runtime once the stored one is deleted. *)
Lemma updateUserInBrain_object (E : Env) (user : obj) (st : State) :
  get user "type" ≠ VString "user_change" →
  ∃ merged,
    newUser (VObject user) (users st !! to_property_key (get user "id")) = Normal merged ∧
    updateUserInBrain E user st =
    let key := to_property_key (get user "id") in
    match brain_userForId E key (Some merged) (delete key (users st)) with
    | Normal (us', stored) =>
        (Normal stored, {| users := us'; channelData := channelData st; trace := trace st |})
    | Throw e =>
        (Throw e,
         {| users := delete key (users st); channelData := channelData st; trace := trace st |})
    end.
Proof.
  intros Htype. unfold updateUserInBrain.
  assert (strict_equal (get user "type") (VString "user_change") = false) as ->.
  { destruct (get user "type") as [| | | |s|]; simpl; try done.
    destruct (String.eqb_spec s "user_change"); congruence. }
  destruct (users st !! to_property_key (get user "id")) as [old|] eqn:Hold.
  - destruct (newUser_merged user old) as (merged & Hm & _).
    exists merged. split; [done|].
    cbv [mbind M_bind get_users lift set_users mret M_ret prop]. rewrite Hold, Hm.
    by destruct (brain_userForId E _ _ _) as [[us' stored]|e].
  - exists (built user). split; [apply newUser_fresh|].
    cbv [mbind M_bind get_users lift set_users mret M_ret prop].
    rewrite Hold, newUser_fresh.
    by destruct (brain_userForId E _ _ _) as [[us' stored]|e].
Qed.

(** With the runtime of [Hubot], the record stored for the user carries
    every field of the merged record (a [name] only when it is truthy: the
    runtime puts the id in its place otherwise). *)
Lemma updateUserInBrain_stored (E : Env) (user : obj) (st : State) :
  brain_userForId E = Hubot.userForId →
  get user "type" ≠ VString "user_change" →
  let key := to_property_key (get user "id") in
  ∃ merged stored st',
    newUser (VObject user) (users st !! key) = Normal merged ∧
    updateUserInBrain E user st = (Normal stored, st') ∧
    users st' !! key = Some stored ∧
    ∀ k v, merged !! k = Some v → (k = "name" → truthy v = true) → stored !! k = Some v.
Proof.
  intros HE Htype key.
  destruct (updateUserInBrain_object E user st Htype) as (merged & Hm & Hu).
  fold key in Hm, Hu. cbv zeta in Hu. rewrite HE in Hu. unfold Hubot.userForId in Hu.
  rewrite lookup_delete_eq in Hu.
  eexists merged, _, _. split; [done|]. split; [exact Hu|]. simpl.
  split; [apply lookup_insert_eq|].
  intros k v Hk Hname. unfold Hubot.User. simpl.
  assert ((merged ∪ {["id" := VString key]}) !! k = Some v) as Hu'.
  { by apply lookup_union_Some_l. }
  destruct (truthy (get (merged ∪ {["id" := VString key]}) "name")) eqn:Ht; [done|].
  destruct (decide (k = "name")) as [->|Hne].
  - unfold get in Ht. rewrite Hu' in Ht. simpl in Ht. rewrite Hname in Ht; done.
  - by rewrite lookup_insert_ne.
Qed.

(** C4 (as the code behaves): the brain holds a record for U1 with two
    fields added locally, [karma] and [toString]; neither is among the keys
    built from the new payload. On a new sighting of U1 the record that
    [updateUserInBrain] merges and hands to the runtime, and the record
    stored in the end, have the new platform fields and [karma], but
    [toString] is gone: ["toString" in newUser] holds for every object. *)
Theorem updateUserInBrain_inherited_name_lost :
  let st := {| users := {[ "U1" := alice_stored ]}; channelData := ∅; trace := [] |} in
  ∃ merged stored st',
    newUser (VObject alice_sighted) (Some alice_stored) = Normal merged ∧
    merged !! "karma" = Some (VNumber (Num 5)) ∧
    merged !! "toString" = None ∧
    updateUserInBrain (Hubot.env VNull None) alice_sighted st = (Normal stored, st') ∧
    users st' !! "U1" = Some stored ∧
    stored !! "real_name" = Some (VString "Alice A.") ∧
    stored !! "slack" = Some (VObject alice_sighted) ∧
    built alice_sighted !! "karma" = None ∧
    alice_stored !! "karma" = Some (VNumber (Num 5)) ∧
    stored !! "karma" = Some (VNumber (Num 5)) ∧
    built alice_sighted !! "toString" = None ∧
    alice_stored !! "toString" = Some (VString "she/her") ∧
    stored !! "toString" = None.
Proof.
  intros st. eexists _, _, _. split; [vm_compute; reflexivity|].
  split; [by vm_compute|]. split; [by vm_compute|].
  split; [vm_compute; reflexivity|].
  repeat split; by vm_compute.
Qed.

End UserDirectoryFacts.

(** ** Event normaliser: text preprocessing *)

Module TextFacts.
Import SlackBot Sample.

Lemma strip_prefix_app (p r : string) : strip_prefix p (p +:+ r) = Some r.
Proof.
  induction p as [|a p IH]; simpl; [by destruct r|].
  by rewrite Ascii.eqb_refl.
Qed.

Lemma split_first_unfold (pat s : string) :
  split_first pat s =
  match strip_prefix pat s with
  | Some rest => Some (EmptyString, rest)
  | None =>
      match s with
      | EmptyString => None
      | String c s' =>
          match split_first pat s' with
          | Some (before, after) => Some (String c before, after)
          | None => None
          end
      end
  end.
Proof. by destruct s. Qed.

(** A text that starts with the pattern has its first occurrence there. *)
Lemma split_first_prefix (pat r : string) :
  split_first pat (pat +:+ r) = Some (EmptyString, r).
Proof. by rewrite split_first_unfold, strip_prefix_app. Qed.

Lemma includes_cons_dollar (c : ascii) (r : string) :
  includes (String c r) "$" = false →
  Ascii.eqb c "$" = false ∧ includes r "$" = false.
Proof.
  unfold includes. rewrite split_first_unfold. cbn [strip_prefix].
  destruct (Ascii.eqb_spec "$" c) as [<-|Hne]; [done|].
  intros H. split; [apply Ascii.eqb_neq; congruence|].
  by destruct (split_first "$" r) as [[? ?]|].
Qed.

(** A replacement without [$] is inserted as it is. *)
Lemma get_substitution_plain (matched before after replacement : string) :
  includes replacement "$" = false →
  get_substitution matched before after replacement = replacement.
Proof.
  induction replacement as [|c r IH]; [done|].
  intros [Hc Hr]%includes_cons_dollar. simpl. rewrite Hc. by rewrite IH.
Qed.

(** [text] is what [event_text] reads after [event.text = t]. *)
Lemma event_text_set (event : slack_event) (t : string) :
  event_text (set_text event t) = t.
Proof. reflexivity. Qed.

(** Once the bot is authenticated the two rewritings do not throw. *)
Lemma preprocess_total (cfg : Config) (me : identity) (event : slack_event) :
  self cfg = Some me → ∃ event', preprocess cfg event = Normal event'.
Proof.
  intros Hme. unfold preprocess, addBotIdToMessage, replaceBotIdWithName. rewrite Hme.
  repeat case_match; simplify_eq; eauto.
Qed.

(** C3 (amended): for an event of a direct-message conversation whose text
    is "hello" and does not contain the bot's user id, the first step
    yields "<@BOTID> hello"; the second step then replaces that mention, so
    the text the dispatch sees is the replacement (the alias, else "@" and
    the bot's name, with the [$]-patterns of [String.prototype.replace]
    expanded) followed by " hello": "ALIAS hello" or "@NAME hello" when the
    replacement has no [$]. *)
Theorem preprocess_direct_hello (cfg : Config) (me : identity) (event : slack_event) :
  self cfg = Some me →
  channel_type event = Some "im" →
  text event = Some "hello" →
  includes "hello" (self_user_id me) = false →
  let botId := self_user_id me in
  addBotIdToMessage cfg event = Normal (mention botId +:+ " hello") ∧
  ∃ event',
    preprocess cfg event = Normal event' ∧
    text event' =
      Some (get_substitution (mention botId) "" " hello" (replacement cfg me) +:+ " hello") ∧
    (includes (replacement cfg me) "$" = false →
     text event' = Some (replacement cfg me +:+ " hello")).
Proof.
  intros Hme Him Htext Hfree botId.
  assert (addBotIdToMessage cfg event = Normal (mention botId +:+ " hello")) as Hadd.
  { unfold addBotIdToMessage, event_text. rewrite Htext, Him, Hme, Hfree.
    by rewrite bool_decide_eq_true_2. }
  split; [exact Hadd|].
  unfold preprocess. rewrite Hadd.
  unfold replaceBotIdWithName. rewrite Hme, event_text_set. fold botId.
  assert (includes (mention botId +:+ " hello") (mention botId) = true) as ->.
  { unfold includes. by rewrite split_first_prefix. }
  assert (∀ r, replace (mention botId +:+ " hello") (mention botId) r =
               get_substitution (mention botId) "" " hello" r +:+ " hello") as Hrep.
  { intros r. unfold replace. by rewrite split_first_prefix. }
  unfold replacement. simpl alias.
  destruct (truthy (of_option (alias cfg))); eexists; (split; [reflexivity|]);
    simpl text; rewrite Hrep; (split; [done|]);
    intros Hplain; by rewrite get_substitution_plain.
Qed.

Lemma preprocess_direct_hello_witness :
  let cfg := Hubot.config (Num 300000) (Some hubot_U123) (Some "!") in
  addBotIdToMessage cfg hello_im = Normal "<@U123> hello" ∧
  ∃ event', preprocess cfg hello_im = Normal event' ∧ text event' = Some "! hello".
Proof.
  intros cfg.
  destruct (preprocess_direct_hello cfg hubot_U123 hello_im eq_refl eq_refl eq_refl eq_refl)
    as (Hadd & event' & Hpre & _ & Htext).
  split; [exact Hadd|]. exists event'. split; [exact Hpre|]. exact (Htext eq_refl).
Defined.

(** C3 (as stated) fails: the bot U123 named hubot, without alias, gets
    "hello" in a direct message; the text after the two steps is
    "@hubot hello", not "<@U123> hello". *)
Lemma preprocess_direct_hello_not_mention :
  let cfg := Hubot.config (Num 300000) (Some hubot_U123) None in
  includes "hello" "U123" = false ∧
  ∃ event',
    preprocess cfg hello_im = Normal event' ∧
    text event' = Some "@hubot hello" ∧
    text event' ≠ Some "<@U123> hello".
Proof.
  intros cfg. split; [reflexivity|].
  eexists. split; [reflexivity|]. split; [reflexivity|]. discriminate.
Qed.

End TextFacts.

(** ** Event normaliser: [SlackBot.eventHandler] *)

Module EventFacts.
Import SlackBot Sample.

Lemma silent_ret {A} (a : A) : silent (mret a).
Proof. by intros st. Qed.

Lemma silent_throw {A} (e : error) : silent (@throw A e).
Proof. by intros st. Qed.

Lemma silent_lift {A} (c : completion A) : silent (lift c).
Proof. by intros st. Qed.

Lemma silent_bind {A B} (m : M A) (f : A → M B) :
  silent m → (∀ a, silent (f a)) → silent (m ≫= f).
Proof.
  intros Hm Hf st. unfold mbind, M_bind. specialize (Hm st).
  destruct (m st) as [[a|e] st1]; simpl in *; [|done].
  by rewrite Hf.
Qed.

Lemma silent_emit (e : effect) : (∀ m, e ≠ Receive m) → silent (emit e).
Proof.
  intros He st. simpl. rewrite received_app. simpl.
  destruct e; try by rewrite app_nil_r. by destruct (He m).
Qed.

Lemma silent_call {A} (e : effect) (answer : list effect → completion A) :
  (∀ m, e ≠ Receive m) → silent (call e answer).
Proof. intros He st. apply (silent_emit e He st). Qed.

Lemma silent_when (b : bool) (m : M unit) : silent m → silent (when b m).
Proof. destruct b; [done|]. intros _. apply silent_ret. Qed.

Lemma silent_get_users : silent get_users.
Proof. by intros st. Qed.

Lemma silent_set_users (us : gmap string obj) : silent (set_users us).
Proof. by intros st. Qed.

Lemma silent_userForId (E : Env) (id : string) (options : option obj) :
  silent (userForId E id options).
Proof.
  unfold userForId. apply silent_bind; [apply silent_get_users|]. intros us.
  apply silent_bind; [apply silent_lift|]. intros [us' u].
  apply silent_bind; [apply silent_set_users|]. intros _. apply silent_ret.
Qed.

Create HintDb silent.
#[local] Hint Resolve silent_ret silent_throw silent_lift silent_get_users silent_set_users
  silent_userForId silent_when : silent.

(** Acknowledging and resolving the acting user hands nothing to the
    receive pipeline. *)
Lemma resolve_silent (E : Env) (message : socket_message) : silent (resolve E message).
Proof.
  unfold resolve.
  apply silent_bind; [by apply silent_emit|]. intros _.
  apply silent_bind; [apply silent_when; by apply silent_call|]. intros _.
  destruct (body_event message) as [body_ev|]; [|auto with silent].
  destruct (negb _); [auto with silent|].
  destruct (event message) as [ev|]; [|auto with silent].
  apply silent_bind; [auto with silent|]. intros us.
  apply silent_bind.
  { apply silent_when. apply silent_bind; [by apply silent_call|]. intros r.
    apply silent_bind; auto with silent. }
  intros _. apply silent_bind; auto with silent.
Qed.

(** The handler on an event of somebody else: the record gets its room,
    the text is rewritten, and the dispatch runs. *)
Lemma eventHandler_dispatch (E : Env) (cfg : Config) (message : socket_message) (st st1 : State)
    (me : identity) (ev body_ev body_ev' : slack_event) (key : string) (from : obj) :
  self cfg = Some me →
  resolve E message st = (Normal (Some (ev, body_ev, key, Some from)), st1) →
  strict_equal (get from "id") (VString (self_user_id me)) = false →
  preprocess cfg body_ev = Normal body_ev' →
  eventHandler E cfg message st =
  dispatch E message ev body_ev' key (with_room ev from) (before_dispatch ev key from st1).
Proof.
  intros Hme Hres Hother Hpre. unfold eventHandler.
  unfold mbind at 1. unfold M_bind at 1. rewrite Hres, Hme.
  cbv [mbind M_bind mret M_ret]. rewrite Hother.
  cbv [log emit get_users set_users lift]. rewrite Hpre.
  unfold before_dispatch, with_room. simpl. by rewrite <- !app_assoc.
Qed.

(** C6: when the resolved acting user carries the bot's own user id, the
    handler returns at once: its final state is the state reached by the
    resolution (no classification, no further effect), and nothing has been
    handed to the receive pipeline. *)
Theorem eventHandler_ignores_self (E : Env) (cfg : Config) (message : socket_message)
    (st st1 : State) (me : identity) (ev body_ev : slack_event) (key : string) (from : obj) :
  self cfg = Some me →
  resolve E message st = (Normal (Some (ev, body_ev, key, Some from)), st1) →
  get from "id" = VString (self_user_id me) →
  eventHandler E cfg message st = (Normal tt, st1) ∧
  received (trace (eventHandler E cfg message st).2) = received (trace st).
Proof.
  intros Hme Hres Hid.
  assert (eventHandler E cfg message st = (Normal tt, st1)) as Hh.
  { unfold eventHandler. unfold mbind at 1. unfold M_bind at 1. rewrite Hres, Hme.
    cbv [mbind M_bind mret M_ret]. rewrite Hid. simpl. by rewrite String.eqb_refl. }
  split; [exact Hh|]. rewrite Hh. simpl.
  pose proof (resolve_silent E message st) as Hs. by rewrite Hres in Hs.
Qed.

Lemma eventHandler_ignores_self_witness :
  eventHandler (Hubot.env VNull None) slack_cfg
    (membership_message "member_joined_channel" "U123") brain = (Normal tt, acknowledged) ∧
  received (trace (eventHandler (Hubot.env VNull None) slack_cfg
                     (membership_message "member_joined_channel" "U123") brain).2) = [].
Proof.
  apply (eventHandler_ignores_self (Hubot.env VNull None) slack_cfg
           (membership_message "member_joined_channel" "U123") brain acknowledged
           hubot_U123 (membership_event "member_joined_channel" "U123")
           (membership_event "member_joined_channel" "U123") "U123" hubot_record);
    reflexivity.
Defined.



End EventFacts.

(** * Further properties *)

(** ** Conversation cache *)

Module CacheMore.
Import SlackClient Sample CacheFacts.

(** X1: [fetchConversation] touches nothing but the entry of the
    conversation it is asked for: the brain and every other entry are
    unchanged, and it does at most one thing to the outside, a
    [conversations.info] request for that conversation. *)
Theorem fetchConversation_frame (E : Env) (cfg : Config) (id : string) (st : State) :
  let st' := (fetchConversation E cfg id st).2 in
  users st' = users st ∧
  (∀ k, k ≠ id → channelData st' !! k = channelData st !! k) ∧
  (trace st' = trace st ∨ trace st' = (trace st ++ [Rest (conversations_info id)])%list).
Proof.
  destruct (valid (number_sub (Num (Date_now E (trace st))) (TTL cfg)) (channelData st !! id))
    eqn:Hv.
  - destruct (valid_Some _ _ Hv) as [e He]. rewrite He in Hv.
    rewrite (fetchConversation_hit E cfg id st e He Hv). simpl. auto.
  - rewrite (fetchConversation_miss E cfg id st Hv).
    destruct (web_conversations_info E (trace st) id) as [c|err]; simpl.
    + split; [done|]. split; [|by right]. intros k Hk.
      destruct (nullish c); [by rewrite lookup_delete_ne|by rewrite lookup_insert_ne].
    + split; [done|]. split; [|by right]. intros k Hk. by rewrite lookup_delete_ne.
Qed.

(** X2: a conversation fetched on a miss is served from the cache
    afterwards: whatever happens in between ([es]), a second call made
    while less than the TTL has elapsed since the store returns the same
    conversation and changes nothing (one request in all); once the TTL
    has elapsed, the second call makes a new request. *)
Theorem fetchConversation_twice (E : Env) (cfg : Config) (id : string) (st : State)
    (ttl : Z) (c : value) (es : list effect) :
  TTL cfg = Num ttl →
  channelData st !! id = None →
  web_conversations_info E (trace st) id = Normal c →
  nullish c = false →
  let requested := (trace st ++ [Rest (conversations_info id)])%list in
  let st1 := (fetchConversation E cfg id st).2 in
  let elapsed := Date_now E (requested ++ es) - Date_now E requested in
  (fetchConversation E cfg id st).1 = Normal c ∧
  trace st1 = requested ∧
  ((elapsed < ttl)%Z →
   fetchConversation E cfg id (add_effects st1 es) = (Normal c, add_effects st1 es)) ∧
  ((ttl ≤ elapsed)%Z →
   trace (fetchConversation E cfg id (add_effects st1 es)).2 =
   (requested ++ es ++ [Rest (conversations_info id)])%list).
Proof.
  intros Httl Hnone Hresp Hc requested st1 elapsed.
  assert (fetchConversation E cfg id st =
          (Normal c, {| users := users st;
                        channelData := <[id := Entry c (Date_now E requested)]> (channelData st);
                        trace := requested |})) as Hf.
  { rewrite fetchConversation_miss by (rewrite Hnone; reflexivity). rewrite Hresp. simpl.
    by rewrite Hc. }
  unfold st1. rewrite Hf. simpl. split; [done|]. split; [done|].
  match goal with |- context [add_effects ?s es] => set (st' := s) end.
  assert (channelData (add_effects st' es) !! id
          = Some (Entry c (Date_now E requested))) as Hentry.
  { simpl. apply lookup_insert_eq. }
  split.
  - intros Hel. apply (fetchConversation_hit E cfg id _ _ Hentry).
    rewrite Httl. apply valid_spec. eexists. split; [done|]. split; [done|]. simpl.
    unfold elapsed in Hel. lia.
  - intros Hel. rewrite fetchConversation_miss.
    + destruct (web_conversations_info E (trace (add_effects st' es)) id);
        simpl; unfold requested; by rewrite <- !app_assoc.
    + rewrite Hentry, Httl. apply not_true_is_false. rewrite valid_spec.
      intros (e & [= <-] & _ & Hlt). simpl in Hlt. unfold elapsed in Hel. lia.
Qed.

Lemma fetchConversation_twice_witness :
  let E := Hubot.env general None in
  let cfg := Hubot.config (Num 300000) None None in
  let st1 := (fetchConversation E cfg "C1" Hubot.initial).2 in
  (fetchConversation E cfg "C1" Hubot.initial).1 = Normal general ∧
  fetchConversation E cfg "C1" (add_effects st1 [Log debug "later"])
    = (Normal general, add_effects st1 [Log debug "later"]).
Proof.
  intros E cfg st1.
  destruct (fetchConversation_twice E cfg "C1" Hubot.initial 300000 general
              [Log debug "later"] eq_refl eq_refl eq_refl eq_refl) as (Hr & _ & Hhit & _).
  split; [exact Hr|]. apply Hhit. by vm_compute.
Defined.

(** X3: the cache is off when the TTL is [NaN] (what an unparseable
    configuration leaves), and when it is zero or negative and no entry is
    stamped later than the clock shows: every call makes a request. *)
Theorem fetchConversation_cache_off (E : Env) (cfg : Config) (id : string) (st : State) :
  (TTL cfg = NaN ∨
   ∃ ttl, TTL cfg = Num ttl ∧ (ttl ≤ 0)%Z ∧
          ∀ e, channelData st !! id = Some e → (updated e ≤ Date_now E (trace st))%Z) →
  rest_calls (trace (fetchConversation E cfg id st).2) =
  (rest_calls (trace st) ++ [conversations_info id])%list.
Proof.
  intros [Hnan|(ttl & Httl & Hle & Hclock)]; [by apply fetchConversation_NaN|].
  rewrite fetchConversation_miss.
  - destruct (web_conversations_info E (trace st) id); simpl; by rewrite rest_calls_app.
  - rewrite Httl. apply not_true_is_false. rewrite valid_spec.
    intros (e & He & _ & Hlt). specialize (Hclock e He). lia.
Qed.

Lemma fetchConversation_cache_off_witness :
  let E := Hubot.env general None in
  rest_calls (trace (fetchConversation E (Hubot.config NaN None None) "C1" cached_general).2)
    = [conversations_info "C1"] ∧
  rest_calls (trace (fetchConversation E (Hubot.config (Num 0) None None) "C1" cached_general).2)
    = [conversations_info "C1"].
Proof.
  intros E. split.
  - apply (fetchConversation_cache_off E (Hubot.config NaN None None) "C1" cached_general).
    left. reflexivity.
  - apply (fetchConversation_cache_off E (Hubot.config (Num 0) None None) "C1" cached_general).
    right. exists 0%Z. split; [reflexivity|]. split; [lia|].
    intros e He. vm_compute in He. injection He as <-. by vm_compute.
Defined.

End CacheMore.

(** ** User directory *)

Module DirectoryMore.
Import SlackClient Sample UserDirectoryFacts Notions Sample2.

(** With the runtime of [Hubot], [updateUserInBrain] on a user object
    replaces the record under the user's key by the runtime's record of
    the merged fields, and does nothing else. *)
Lemma updateUserInBrain_hubot (E : Env) (user : obj) (st : State) :
  brain_userForId E = Hubot.userForId →
  get user "type" ≠ VString "user_change" →
  let key := to_property_key (get user "id") in
  ∃ merged,
    newUser (VObject user) (users st !! key) = Normal merged ∧
    updateUserInBrain E user st =
    (Normal (Hubot.User key (Some merged)),
     {| users := <[key := Hubot.User key (Some merged)]> (delete key (users st));
        channelData := channelData st;
        trace := trace st |}).
Proof.
  intros HE Htype key.
  destruct (updateUserInBrain_object E user st Htype) as (merged & Hm & Hu).
  exists merged. split; [exact Hm|]. rewrite Hu. cbv zeta. fold key.
  rewrite HE. unfold Hubot.userForId. by rewrite lookup_delete_eq.
Qed.


(** What the runtime's record keeps of the fields it is given *)
Lemma User_lookup (key : string) (merged : obj) (k : string) (v : value) :
  merged !! k = Some v → (k = "name" → truthy v = true) →
  Hubot.User key (Some merged) !! k = Some v.
Proof.
  intros Hk Hname. unfold Hubot.User. simpl.
  assert ((merged ∪ {["id" := VString key]}) !! k = Some v) as Hu
    by (by apply lookup_union_Some_l).
  destruct (truthy (get (merged ∪ {["id" := VString key]}) "name")) eqn:Ht; [done|].
  destruct (decide (k = "name")) as [->|Hne]; [|by rewrite lookup_insert_ne].
  unfold get in Ht. rewrite Hu in Ht. simpl in Ht. rewrite Hname in Ht; done.
Qed.





(** X6: a [user_change] event is treated as the user it carries. *)
Theorem updateUserInBrain_user_change (E : Env) (event user : obj) (st : State) :
  get event "type" = VString "user_change" →
  get event "user" = VObject user →
  get user "type" ≠ VString "user_change" →
  updateUserInBrain E event st = updateUserInBrain E user st.
Proof.
  intros Htype Huser Hplain. unfold updateUserInBrain. rewrite Htype, Huser.
  assert (strict_equal (get user "type") (VString "user_change") = false) as ->.
  { destruct (get user "type") as [| | | |s|]; simpl; try done.
    destruct (String.eqb_spec s "user_change"); congruence. }
  reflexivity.
Qed.

Lemma updateUserInBrain_user_change_witness :
  let event : obj := <["user" := VObject alice_sighted]> {[ "type" := VString "user_change" ]} in
  updateUserInBrain (Hubot.env VNull None) event Hubot.initial =
  updateUserInBrain (Hubot.env VNull None) alice_sighted Hubot.initial.
Proof.
  intros event.
  apply (updateUserInBrain_user_change (Hubot.env VNull None) event alice_sighted
           Hubot.initial); [reflexivity|reflexivity|by vm_compute].
Defined.

(** A [user_change] event that carries no user object makes
    [updateUserInBrain] throw a TypeError before it touches anything. *)
Lemma updateUserInBrain_without_user (E : Env) (event : obj) (st : State) :
  get event "type" = VString "user_change" →
  nullish (get event "user") = true →
  updateUserInBrain E event st = (Throw TypeError, st).
Proof.
  intros Htype Hnull. unfold updateUserInBrain. rewrite Htype. simpl.
  cbv [mbind M_bind get_users lift]. by destruct (get event "user").
Qed.

Lemma updateUserInBrain_without_user_witness :
  updateUserInBrain (Hubot.env VNull None) {[ "type" := VString "user_change" ]} Hubot.initial
  = (Throw TypeError, Hubot.initial).
Proof.
  apply (updateUserInBrain_without_user (Hubot.env VNull None)
           {[ "type" := VString "user_change" ]} Hubot.initial); reflexivity.
Defined.

End DirectoryMore.

(** ** User directory: [SlackClient.fetchUser] *)

Module FetchUserFacts.
Import SlackClient Sample UserDirectoryFacts DirectoryMore.

Lemma fetchUser_hit (E : Env) (userId : string) (u : obj) (st : State) :
  users st !! userId = Some u → fetchUser E userId st = (Normal (Record_of u), st).
Proof. intros Hu. unfold fetchUser. cbv [mbind M_bind get_users]. by rewrite Hu. Qed.

(** A miss: the request, then [updateUserInBrain] on the user of the
    response. *)
Lemma fetchUser_miss (E : Env) (userId : string) (st : State) :
  users st !! userId = None →
  inherited userId = false →
  let requested := add_effects st [Rest (users_info (Some userId))] in
  fetchUser E userId st =
  match web_users_info E (trace st) (Some userId) with
  | Normal (Some u) =>
      match updateUserInBrain E u requested with
      | (Normal _, st') => (Normal (Record_of u), st')
      | (Throw e, st') => (Throw e, st')
      end
  | Normal None => (Throw TypeError, requested)
  | Throw e => (Throw e, requested)
  end.
Proof.
  intros Hu Hown requested. unfold fetchUser. cbv [mbind M_bind get_users call].
  rewrite Hu, Hown.
  fold (add_effects st [Rest (users_info (Some userId))]). fold requested.
  destruct (web_users_info E (trace st) (Some userId)) as [[u|]|e]; [|done|done].
  by destruct (updateUserInBrain E u requested) as [[stored|e] st'].
Qed.

(** An id that names a member of [Object.prototype] is taken for a known
    user: no request, and the result is that member. *)
Lemma fetchUser_prototype_name (E : Env) (userId : string) (st : State) :
  users st !! userId = None →
  inherited userId = true →
  fetchUser E userId st = (Normal (Member_of_prototype userId), st).
Proof.
  intros Hu Hin. unfold fetchUser. cbv [mbind M_bind get_users]. by rewrite Hu, Hin.
Qed.

(** X7: fetch on miss. For a user the brain does not know, [fetchUser]
    makes one [users.info] request, stores the user of the response
    through [updateUserInBrain] and returns that user as received; from
    then on the user is served from the brain without a request, as the
    stored record, which unlike the first result carries the payload
    under [slack]. (Runtime of [Hubot]; the response names the requested
    user; the id is not the name of a member of [Object.prototype].) *)
Theorem fetchUser_caches (E : Env) (userId : string) (u : obj) (st : State) :
  brain_userForId E = Hubot.userForId →
  users st !! userId = None →
  inherited userId = false →
  web_users_info E (trace st) (Some userId) = Normal (Some u) →
  get u "id" = VString userId →
  get u "type" ≠ VString "user_change" →
  ∃ stored st1,
    fetchUser E userId st = (Normal (Record_of u), st1) ∧
    rest_calls (trace st1) = (rest_calls (trace st) ++ [users_info (Some userId)])%list ∧
    users st1 !! userId = Some stored ∧
    stored !! "slack" = Some (VObject u) ∧
    ∀ es, fetchUser E userId (add_effects st1 es) = (Normal (Record_of stored), add_effects st1 es).
Proof.
  intros HE Hnone Hown Hresp Hid Htype.
  rewrite (fetchUser_miss E userId st Hnone Hown), Hresp.
  destruct (updateUserInBrain_hubot E u (add_effects st [Rest (users_info (Some userId))])
              HE Htype) as (merged & Hm & Hu).
  rewrite Hid in Hm, Hu. simpl in Hm, Hu. rewrite Hnone in Hm.
  rewrite newUser_fresh in Hm. injection Hm as <-.
  rewrite Hu. eexists _, _. split; [reflexivity|]. simpl.
  split; [by rewrite rest_calls_app|].
  split; [apply lookup_insert_eq|].
  split.
  { apply User_lookup; [|done]. by destruct (built_fields u) as (_ & _ & _ & Hs & _). }
  intros es. apply fetchUser_hit. simpl. apply lookup_insert_eq.
Qed.

(** X8: when the request fails, or the response carries no user,
    [fetchUser] throws (the failure of the request, a TypeError) after its
    one request, and the brain is as before. *)
Theorem fetchUser_failure (E : Env) (userId : string) (st : State) :
  users st !! userId = None →
  inherited userId = false →
  (∀ u, web_users_info E (trace st) (Some userId) ≠ Normal (Some u)) →
  ∃ e,
    fetchUser E userId st = (Throw e, add_effects st [Rest (users_info (Some userId))]) ∧
    match web_users_info E (trace st) (Some userId) with
    | Throw e' => e = e'
    | Normal _ => e = TypeError
    end.
Proof.
  intros Hnone Hown Hresp. rewrite (fetchUser_miss E userId st Hnone Hown).
  destruct (web_users_info E (trace st) (Some userId)) as [[u|]|e]; [by destruct (Hresp u)| |];
    eexists; by split.
Qed.


Lemma fetchUser_caches_witness :
  let E := Hubot.env VNull (Some alice_sighted) in
  ∃ stored st1,
    fetchUser E "U1" Hubot.initial = (Normal (Record_of alice_sighted), st1) ∧
    rest_calls (trace st1) = [users_info (Some "U1")] ∧
    stored !! "slack" = Some (VObject alice_sighted) ∧
    fetchUser E "U1" (add_effects st1 []) = (Normal (Record_of stored), add_effects st1 []).
Proof.
  intros E.
  destruct (fetchUser_caches E "U1" alice_sighted Hubot.initial eq_refl eq_refl eq_refl eq_refl
              eq_refl)
    as (stored & st1 & Hf & Hr & _ & Hs & Hhit).
  { by vm_compute. }
  exists stored, st1. split; [exact Hf|]. split; [exact Hr|]. split; [exact Hs|]. apply Hhit.
Defined.

Lemma fetchUser_failure_witness :
  fetchUser (Hubot.offline (Error "user_not_found")) "U1" Hubot.initial
    = (Throw (Error "user_not_found"), add_effects Hubot.initial [Rest (users_info (Some "U1"))]) ∧
  fetchUser (Hubot.env VNull None) "U1" Hubot.initial
    = (Throw TypeError, add_effects Hubot.initial [Rest (users_info (Some "U1"))]).
Proof.
  split.
  - destruct (fetchUser_failure (Hubot.offline (Error "user_not_found")) "U1" Hubot.initial
                eq_refl eq_refl) as (e & Hf & He); [done|].
    simpl in He. by rewrite He in Hf.
  - destruct (fetchUser_failure (Hubot.env VNull None) "U1" Hubot.initial eq_refl eq_refl)
      as (e & Hf & He); [done|].
    simpl in He. by rewrite He in Hf.
Defined.


End FetchUserFacts.

(** ** Outbound gateway *)

Module SendMore.
Import SlackClient Sample Notions Sample2.

Lemma send_message (E : Env) (envelope : Envelope.t) (message : value) (st : State) :
  nullish (room_of envelope) = false →
  nullish message = false →
  printable (room_of envelope) →
  printable message →
  let payload := messageOptions (room_of envelope) (text_of message)
                   (thread_ts_of envelope) message in
  send E envelope message st =
  (Normal tt,
   add_effects st
     [Log debug "SlackClient#send()"; Rest (chat_postMessage payload);
      match web_chat_postMessage E (trace st ++ [Log debug "SlackClient#send()"])%list payload with
      | Normal _ => Log debug "Successfully sent message"
      | Throw _ => Log error_level "SlackClient#send() error"
      end]).
Proof.
  intros Hroom Hmsg [r Hr] [m Hm] payload. unfold send. rewrite Hroom, Hr, Hm.
  assert ((match message with
           | VString _ => Normal message
           | _ => prop message "text"
           end) = Normal (text_of message)) as Htext by (by destruct message).
  cbv [mbind M_bind log emit lift]. rewrite Htext. fold payload.
  unfold try_catch, call. cbn [trace].
  destruct (web_chat_postMessage E _ payload) as [[]|e]; unfold add_effects; cbn;
    by rewrite <- !app_assoc.
Qed.

(** X10: delivery is best effort. With a resolvable room and a message
    that is not [undefined] or [null] (both of which the debug line can
    format), [send] makes exactly one [chat.postMessage] request and
    completes normally whatever the request does; a failed request leaves
    one error line and is not retried. The brain and the cache are
    untouched. *)
Theorem send_best_effort (E : Env) (envelope : Envelope.t) (message : value) (st : State) :
  nullish (room_of envelope) = false →
  nullish message = false →
  printable (room_of envelope) →
  printable message →
  ∃ st' payload,
    send E envelope message st = (Normal tt, st') ∧
    rest_calls (trace st') = (rest_calls (trace st) ++ [chat_postMessage payload])%list ∧
    errors_logged (trace st') =
      (errors_logged (trace st) ++
       match web_chat_postMessage E (trace st ++ [Log debug "SlackClient#send()"])%list payload with
       | Normal _ => []
       | Throw _ => ["SlackClient#send() error"]
       end)%list ∧
    users st' = users st ∧ channelData st' = channelData st.
Proof.
  intros Hroom Hmsg Hr Hm.
  eexists _, (messageOptions (room_of envelope) (text_of message) (thread_ts_of envelope)
                message).
  split; [by apply send_message|]. simpl.
  unfold errors_logged. rewrite rest_calls_app, omap_app.
  destruct (web_chat_postMessage E _ _) as [[]|e]; simpl; by rewrite ?app_nil_r.
Qed.

Lemma send_best_effort_witness :
  ∃ st' payload,
    send (Hubot.offline (Error "ratelimited")) room_C1 (VString "hi") Hubot.initial
      = (Normal tt, st') ∧
    rest_calls (trace st') = [chat_postMessage payload] ∧
    errors_logged (trace st') = ["SlackClient#send() error"].
Proof.
  destruct (send_best_effort (Hubot.offline (Error "ratelimited")) room_C1 (VString "hi")
              Hubot.initial eq_refl eq_refl) as (st' & payload & Hs & Hr & He & _);
    [by eexists|by eexists|].
  exists st', payload. split; [exact Hs|]. split; [exact Hr|exact He].
Defined.

(** A message that is [undefined] or [null] cannot be sent: with a
    resolvable room [send] throws a TypeError (reading [message.text])
    after its debug line and makes no request. *)
Lemma send_without_message (E : Env) (envelope : Envelope.t) (message : value) (st : State) :
  nullish (room_of envelope) = false →
  printable (room_of envelope) →
  nullish message = true →
  send E envelope message st = (Throw TypeError, add_effects st [Log debug "SlackClient#send()"]).
Proof.
  intros Hroom [r Hr] Hmsg. unfold send. rewrite Hroom, Hr.
  cbv [mbind M_bind log emit lift]. by destruct message.
Qed.

Lemma send_without_message_witness :
  send (Hubot.env VNull None) room_C1 VUndefined Hubot.initial
  = (Throw TypeError, add_effects Hubot.initial [Log debug "SlackClient#send()"]).
Proof.
  apply (send_without_message (Hubot.env VNull None) room_C1 VUndefined Hubot.initial);
    [reflexivity|by eexists|reflexivity].
Defined.

Lemma pretty_N_go_digit_headed (x : N) (s : string) :
  digit_headed s → digit_headed (pretty_N_go x s).
Proof.
  revert s. induction (N.lt_wf_0 x) as [x _ IH]; intros s Hs.
  assert (x = 0 ∨ 0 < x)%N as [->|Hx] by lia; [by rewrite pretty_N_go_0|].
  rewrite pretty_N_go_step by done. apply IH; [by apply N.div_lt|].
  by eexists _, _.
Qed.

Lemma pretty_nat_digit_headed (i : nat) : digit_headed (pretty i).
Proof.
  unfold pretty, pretty_nat, pretty, pretty_N. case_decide.
  - by exists 0%N, "".
  - rewrite pretty_N_go_step by lia. apply pretty_N_go_digit_headed. by eexists _, _.
Qed.

Lemma digit_headed_not (c : ascii) (r : string) :
  (∀ n, pretty_N_char n ≠ c) → ¬ digit_headed (String c r).
Proof. intros Hc (n & r' & [= Hn _]). by apply (Hc n). Qed.

(** The properties of a string are its code units under their indices. *)
Lemma string_properties_index (s : string) (i j : nat) :
  string_properties i s !! pretty (i + j)%nat =
  (λ c, VString (String c EmptyString)) <$> String.get j s.
Proof.
  revert i j. induction s as [|c s IH]; intros i j; simpl.
  { by rewrite lookup_empty. }
  destruct j as [|j].
  - rewrite Nat.add_0_r. by rewrite lookup_insert_eq.
  - rewrite lookup_insert_ne by (intros H%(inj pretty); lia).
    replace (i + S j)%nat with (S i + j)%nat by lia. apply IH.
Qed.

Lemma string_properties_other (s : string) (i : nat) (k : string) :
  ¬ digit_headed k → string_properties i s !! k = None.
Proof.
  intros Hk. revert i. induction s as [|c s IH]; intros i; simpl.
  { apply lookup_empty. }
  rewrite lookup_insert_ne; [apply IH|].
  intros <-. apply Hk, pretty_nat_digit_headed.
Qed.

(** X11: a plain string is sent as the text of the message, to the
    resolved room (one the debug line can format) and in the envelope's thread; because the string is
    spread into the payload as well, the payload also carries each code
    unit of the string under its index. *)
Theorem send_string (E : Env) (envelope : Envelope.t) (s : string) (st : State) :
  nullish (room_of envelope) = false →
  printable (room_of envelope) →
  ∃ st' payload,
    send E envelope (VString s) st = (Normal tt, st') ∧
    rest_calls (trace st') = (rest_calls (trace st) ++ [chat_postMessage payload])%list ∧
    payload !! "text" = Some (VString s) ∧
    payload !! "channel" = Some (room_of envelope) ∧
    payload !! "thread_ts" = Some (thread_ts_of envelope) ∧
    ∀ j c, String.get j s = Some c → payload !! pretty j = Some (VString (String c EmptyString)).
Proof.
  intros Hroom Hr. eexists _, _.
  split; [apply send_message; [done|done|done|by eexists]|]. simpl.
  split. { rewrite rest_calls_app. by destruct (web_chat_postMessage E _ _) as [[]|e]. }
  unfold messageOptions.
  assert (∀ k, ¬ digit_headed k →
            spread (VString s) (defaults (room_of envelope) (VString s) (thread_ts_of envelope))
              !! k = defaults (room_of envelope) (VString s) (thread_ts_of envelope) !! k)
    as Hdef.
  { intros k Hk. rewrite spread_lookup. simpl. by rewrite string_properties_other. }
  assert (∀ n, pretty_N_char n ≠ "t"%char ∧ pretty_N_char n ≠ "c"%char) as Hchars.
  { intros n. unfold pretty_N_char. split; by repeat case_match. }
  split. { rewrite Hdef by (apply digit_headed_not; apply Hchars). reflexivity. }
  split. { rewrite Hdef by (apply digit_headed_not; apply Hchars). reflexivity. }
  split. { rewrite Hdef by (apply digit_headed_not; apply Hchars). reflexivity. }
  intros j c Hj. rewrite spread_lookup. simpl.
  pose proof (string_properties_index s 0 j) as Hi. simpl in Hi. by rewrite Hi, Hj.
Qed.

Lemma send_string_witness :
  ∃ st' payload,
    send (Hubot.env VNull None) room_C1 (VString "hi") Hubot.initial = (Normal tt, st') ∧
    rest_calls (trace st') = [chat_postMessage payload] ∧
    payload !! "text" = Some (VString "hi") ∧
    payload !! "channel" = Some (VString "C1") ∧
    payload !! "1" = Some (VString "i").
Proof.
  destruct (send_string (Hubot.env VNull None) room_C1 "hi" Hubot.initial eq_refl)
    as (st' & payload & Hs & Hr & Ht & Hc & _ & Hi); [by eexists|].
  exists st', payload. split; [exact Hs|]. split; [exact Hr|]. split; [exact Ht|].
  split; [exact Hc|]. exact (Hi 1%nat "i"%char eq_refl).
Defined.

End SendMore.

(** ** Event normaliser: wrapper, requests, outcomes of the dispatch *)

Module EventMore.
Import SlackClient SlackBot Sample TextFacts EventFacts Notions Sample2.

Section Unseen.
Context {B : Type} (f : effect → option B).

Lemma unseen_ret {A} (a : A) : unseen f (mret a).
Proof. by intros st. Qed.

Lemma unseen_throw {A} (e : error) : unseen f (@throw A e).
Proof. by intros st. Qed.

Lemma unseen_lift {A} (c : completion A) : unseen f (lift c).
Proof. by intros st. Qed.

Lemma unseen_bind {A C} (m : M A) (k : A → M C) :
  unseen f m → (∀ a, unseen f (k a)) → unseen f (m ≫= k).
Proof.
  intros Hm Hk st. unfold mbind, M_bind. specialize (Hm st).
  destruct (m st) as [[a|e] st1]; simpl in *; [|done]. by rewrite Hk.
Qed.

Lemma unseen_try_catch {A} (m : M A) (handler : error → M A) :
  unseen f m → (∀ e, unseen f (handler e)) → unseen f (try_catch m handler).
Proof.
  intros Hm Hh st. unfold try_catch. specialize (Hm st).
  destruct (m st) as [[a|e] st1]; simpl in *; [done|]. by rewrite Hh.
Qed.

Lemma unseen_emit (e : effect) : f e = None → unseen f (emit e).
Proof. intros He st. simpl. rewrite omap_app. simpl. rewrite He. apply app_nil_r. Qed.

Lemma unseen_call {A} (e : effect) (answer : list effect → completion A) :
  f e = None → unseen f (call e answer).
Proof. intros He st. apply (unseen_emit e He st). Qed.

Lemma unseen_when (b : bool) (m : M unit) : unseen f m → unseen f (when b m).
Proof. destruct b; [done|]. intros _. apply unseen_ret. Qed.

Lemma unseen_get_users : unseen f get_users.
Proof. by intros st. Qed.

Lemma unseen_set_users (us : gmap string obj) : unseen f (set_users us).
Proof. by intros st. Qed.

Lemma unseen_userForId (E : Env) (id : string) (options : option obj) :
  unseen f (userForId E id options).
Proof.
  unfold userForId. apply unseen_bind; [apply unseen_get_users|]. intros us.
  apply unseen_bind; [apply unseen_lift|]. intros [us' u].
  apply unseen_bind; [apply unseen_set_users|]. intros _. apply unseen_ret.
Qed.

End Unseen.

Ltac unseen_steps :=
  repeat lazymatch goal with
  | |- unseen _ (mbind _ _) => apply unseen_bind; [|intros ?]
  | |- unseen _ (try_catch _ _) => apply unseen_try_catch; [|intros ?]
  | |- unseen _ (mret _) => apply unseen_ret
  | |- unseen _ (throw _) => apply unseen_throw
  | |- unseen _ (lift _) => apply unseen_lift
  | |- unseen _ get_users => apply unseen_get_users
  | |- unseen _ (set_users _) => apply unseen_set_users
  | |- unseen _ (userForId _ _ _) => apply unseen_userForId
  | |- unseen _ (emit _) => apply unseen_emit; reflexivity
  | |- unseen _ (call _ _) => apply unseen_call; reflexivity
  end.

(** Decides the comparisons of a known event type with the cases of the
    dispatch. *)
Ltac decide_types :=
  repeat match goal with
  | |- context [bool_decide (Some ?a = Some ?b)] =>
      let same := eval vm_compute in (String.eqb a b) in
      match same with
      | true => rewrite (bool_decide_eq_true_2 (Some a = Some b)) by done
      | false => rewrite (bool_decide_eq_false_2 (Some a = Some b)) by done
      end
  end.

(** The branches of the dispatch for the event types it knows make no
    REST request. (The default branch hands the client to
    [makeSlackTextMessage], which may.) *)
Lemma dispatch_requestless (E : Env) (message : socket_message) (ev body_ev : slack_event)
    (key : string) (from : obj) :
  Exists (λ t, type ev = Some t) handled_types →
  unseen request_of (dispatch E message ev body_ev key from).
Proof.
  intros H. unfold handled_types in H. rewrite !Exists_cons, Exists_nil in H.
  unfold dispatch, receive, log, is_type.
  apply unseen_try_catch; [|intros ?; by apply unseen_emit].
  destruct H as [H|[H|[H|[H|[H|[]]]]]]; rewrite H; decide_types; cbn [orb];
    repeat case_match; unseen_steps.
Qed.

(** The event that the resolution returns is [message.event]. *)
Lemma resolve_event (E : Env) (message : socket_message) (st st1 : State)
    (ev body_ev : slack_event) (key : string) (from : option obj) :
  resolve E message st = (Normal (Some (ev, body_ev, key, from)), st1) →
  event message = Some ev.
Proof.
  unfold resolve. run. repeat case_match; by intros; simplify_eq.
Qed.

(** Neither does what precedes it, once the acting user is resolved. *)
Lemma eventHandler_requests_resolve (E : Env) (cfg : Config) (message : socket_message)
    (st : State) :
  (∀ ev, event message = Some ev → Exists (λ t, type ev = Some t) handled_types) →
  rest_calls (trace (eventHandler E cfg message st).2) =
  rest_calls (trace (resolve E message st).2).
Proof.
  intros Htype.
  unfold eventHandler. unfold mbind at 1. unfold M_bind at 1.
  destruct (resolve E message st) as [[resolved|e] st1] eqn:Hres; [|done]. simpl.
  destruct resolved as [[[[ev body_ev] key] from]|]; [|done].
  apply resolve_event in Hres. apply Htype in Hres.
  match goal with |- rest_calls (trace (?m st1).2) = _ =>
    assert (unseen request_of m) as Hm end; [|exact (Hm st1)].
  apply unseen_bind; [destruct (self cfg); unseen_steps|]. intros me.
  destruct (strict_equal _ _); [apply unseen_ret|]. unfold log.
  apply unseen_bind; [by apply unseen_emit|]. intros _.
  destruct from as [from|]; [|apply unseen_throw].
  unseen_steps. by apply dispatch_requestless.
Qed.

(** X12: [eventWrapper] contains every failure of the handler. It
    always completes normally; without a handler it does nothing; with
    one, it leaves the state the handler reached, plus one error line when
    the handler threw. *)
Theorem eventWrapper_contains (handler : option (socket_message → M unit))
    (event : socket_message) (st : State) :
  (eventWrapper handler event st).1 = Normal tt ∧
  (eventWrapper handler event st).2 =
  match handler with
  | None => st
  | Some h =>
      match (h event st).1 with
      | Normal _ => (h event st).2
      | Throw _ => add_effects (h event st).2 [Log error_level wrapper_error]
      end
  end.
Proof.
  unfold eventWrapper. destruct handler as [h|]; [|done].
  unfold try_catch. by destruct (h event st) as [[[]|e] st1].
Qed.

(** The handler's resolution of an acting user the brain knows *)
Lemma resolve_known (E : Env) (message : socket_message) (st : State)
    (ev body_ev : slack_event) (u : obj) :
  body_event message = Some body_ev →
  truthy (of_option (user body_ev)) = true →
  event message = Some ev →
  (ack message = true →
   socket_ack E (trace st ++ [Log debug "eventHandler"])%list = Normal tt) →
  users st !! to_property_key (of_option (user ev)) = Some u →
  resolve E message st =
  (Normal (Some (ev, body_ev, to_property_key (of_option (user ev)), Some u)),
   add_effects st (acknowledgement message)).
Proof.
  intros Hbody Huser Hev Hack Hu. unfold resolve, userForId, acknowledgement.
  rewrite Hbody, Huser, Hev. run.
  destruct (ack message); simpl.
  - rewrite (Hack eq_refl). simpl. rewrite Hu.
    rewrite bool_decide_eq_false_2 by done. unfold add_effects. simpl.
    by rewrite ?Hu, <- ?app_assoc.
  - rewrite Hu. rewrite bool_decide_eq_false_2 by done. simpl. by rewrite ?Hu.
Qed.

(** The handler's resolution of an acting user the brain does not know:
    one request, and the runtime stores the user of the response. *)
Lemma resolve_unknown (E : Env) (message : socket_message) (st : State)
    (ev body_ev : slack_event) :
  body_event message = Some body_ev →
  truthy (of_option (user body_ev)) = true →
  event message = Some ev →
  (ack message = true →
   socket_ack E (trace st ++ [Log debug "eventHandler"])%list = Normal tt) →
  let key := to_property_key (of_option (user ev)) in
  users st !! key = None →
  let requested :=
    add_effects st (acknowledgement message ++ [Rest (users_info (user ev))]) in
  resolve E message st =
  match web_users_info E (trace st ++ acknowledgement message)%list (user ev) with
  | Throw e => (Throw e, requested)
  | Normal r =>
      match brain_userForId E key r (users st) with
      | Throw e => (Throw e, requested)
      | Normal (us', _) =>
          (Normal (Some (ev, body_ev, key, us' !! key)),
           {| users := us'; channelData := channelData st; trace := trace requested |})
      end
  end.
Proof.
  intros Hbody Huser Hev Hack key Hu requested.
  unfold resolve, userForId, acknowledgement in *. subst requested key.
  rewrite Hbody, Huser, Hev. run.
  destruct (ack message); simpl.
  - rewrite (Hack eq_refl). simpl. rewrite Hu.
    rewrite bool_decide_eq_true_2 by done. unfold add_effects. simpl.
    rewrite <- !app_assoc. simpl.
    destruct (web_users_info E _ (user ev)) as [r|e]; [|done].
    by destruct (brain_userForId E _ r (users st)) as [[us' u']|e].
  - rewrite Hu. rewrite bool_decide_eq_true_2 by done. unfold add_effects. simpl.
    rewrite <- !app_assoc. simpl.
    destruct (web_users_info E _ (user ev)) as [r|e]; [|done].
    by destruct (brain_userForId E _ r (users st)) as [[us' u']|e].
Qed.

(** X13: for the event types with a branch of their own in the dispatch
    (membership, reaction, [file_shared]) the handler asks the REST
    client for at most one thing, the acting user when the brain does not
    know it. For such an event with an acting user (whose id is not the
    name of a member of [Object.prototype]) whose acknowledgement (if any)
    succeeds, the requests of the whole handler are: none when the brain
    knows [message.event.user], one [users.info] for it otherwise. (Any
    other event is handed, with the client, to [makeSlackTextMessage],
    which makes requests of its own.) *)
Theorem eventHandler_requests (E : Env) (cfg : Config) (message : socket_message)
    (st : State) (ev body_ev : slack_event) :
  body_event message = Some body_ev →
  truthy (of_option (user body_ev)) = true →
  event message = Some ev →
  (ack message = true →
   socket_ack E (trace st ++ [Log debug "eventHandler"])%list = Normal tt) →
  inherited (to_property_key (of_option (user ev))) = false →
  Exists (λ t, type ev = Some t) handled_types →
  rest_calls (trace (eventHandler E cfg message st).2) =
  (rest_calls (trace st) ++
   match users st !! to_property_key (of_option (user ev)) with
   | Some _ => []
   | None => [users_info (user ev)]
   end)%list.
Proof.
  intros Hbody Huser Hev Hack _ Htype.
  rewrite eventHandler_requests_resolve
    by (intros ev' Hev'; rewrite Hev in Hev'; by injection Hev' as <-).
  assert (rest_calls (acknowledgement message) = []) as Hacks.
  { unfold acknowledgement. by destruct (ack message). }
  destruct (users st !! to_property_key (of_option (user ev))) as [u|] eqn:Hu.
  - rewrite (resolve_known E message st ev body_ev u) by done.
    unfold add_effects. cbn [snd trace]. by rewrite rest_calls_app, Hacks.
  - rewrite (resolve_unknown E message st ev body_ev) by done.
    destruct (web_users_info E _ (user ev)) as [r|e].
    + destruct (brain_userForId E _ r (users st)) as [[us' u']|e];
        unfold add_effects; cbn [snd trace]; rewrite !rest_calls_app, Hacks; done.
    + unfold add_effects. cbn [snd trace]. rewrite !rest_calls_app, Hacks. done.
Qed.

(** X14: an event without acting user is acknowledged and dropped: the
    handler logs its debug line, calls the acknowledgement when the
    message has one, and returns; no request, nothing received, brain and
    cache untouched. *)
Theorem eventHandler_no_actor (E : Env) (cfg : Config) (message : socket_message)
    (st : State) :
  (body_event message = None ∨
   ∃ body_ev, body_event message = Some body_ev ∧ truthy (of_option (user body_ev)) = false) →
  (ack message = true →
   socket_ack E (trace st ++ [Log debug "eventHandler"])%list = Normal tt) →
  eventHandler E cfg message st =
  (Normal tt,
   add_effects st (Log debug "eventHandler" :: if ack message then [Ack] else [])).
Proof.
  intros Hnone Hack. unfold eventHandler, resolve.
  destruct Hnone as [Hb|(body_ev & Hb & Hu)]; rewrite Hb, ?Hu; run;
    destruct (ack message); simpl; rewrite ?(Hack eq_refl); simpl;
    unfold add_effects; simpl; by rewrite <- ?app_assoc.
Qed.

(** X15: before the bot is authenticated ([this.self] unset) an event
    with a resolved acting user makes the handler throw a TypeError at the
    comparison with the bot's id: nothing is received, and [eventWrapper]
    turns the failure into an error line. *)
Theorem eventHandler_unauthenticated (E : Env) (cfg : Config) (message : socket_message)
    (st st1 : State) (resolved : slack_event * slack_event * string * option obj) :
  self cfg = None →
  resolve E message st = (Normal (Some resolved), st1) →
  eventHandler E cfg message st = (Throw TypeError, st1) ∧
  received (trace st1) = received (trace st) ∧
  eventWrapper (Some (eventHandler E cfg)) message st =
  (Normal tt, add_effects st1 [Log error_level wrapper_error]).
Proof.
  intros Hself Hres.
  assert (eventHandler E cfg message st = (Throw TypeError, st1)) as Hh.
  { unfold eventHandler. unfold mbind at 1. unfold M_bind at 1. rewrite Hres.
    destruct resolved as [[[ev body_ev] key] from]. by rewrite Hself. }
  split; [exact Hh|]. split.
  - pose proof (resolve_silent E message st) as Hs. by rewrite Hres in Hs.
  - unfold eventWrapper, try_catch. by rewrite Hh.
Qed.

(** The two rewritings only change the text of the event. *)
Lemma preprocess_shape (cfg : Config) (event event' : slack_event) :
  preprocess cfg event = Normal event' → event' = set_text event (event_text event').
Proof.
  unfold preprocess. destruct (addBotIdToMessage cfg event) as [t1|]; [|done].
  destruct (replaceBotIdWithName cfg (set_text event t1)) as [t2|]; [|done].
  by intros [= <-].
Qed.

(** An event of somebody else reaches the dispatch with its text
    rewritten and the acting user's record updated. *)
Lemma eventHandler_reaches (E : Env) (cfg : Config) (message : socket_message)
    (st st1 : State) (me : identity) (ev body_ev : slack_event) (key : string) (from : obj) :
  self cfg = Some me →
  resolve E message st = (Normal (Some (ev, body_ev, key, Some from)), st1) →
  strict_equal (get from "id") (VString (self_user_id me)) = false →
  ∃ body_ev',
    preprocess cfg body_ev = Normal body_ev' ∧
    body_ev' = set_text body_ev (event_text body_ev') ∧
    eventHandler E cfg message st =
      dispatch E message ev body_ev' key (with_room ev from) (before_dispatch ev key from st1) ∧
    received (trace (before_dispatch ev key from st1)) = received (trace st).
Proof.
  intros Hme Hres Hother.
  destruct (preprocess_total cfg me body_ev Hme) as [body_ev' Hpre].
  exists body_ev'. split; [done|]. split; [by apply (preprocess_shape cfg)|].
  split; [by apply (eventHandler_dispatch E cfg message st st1 me ev body_ev)|].
  pose proof (resolve_silent E message st) as Hs. rewrite Hres in Hs. simpl in Hs.
  simpl. rewrite received_app. simpl. by rewrite app_nil_r.
Qed.

(** X16: once the acting user is resolved and is somebody else, the
    handler always completes normally: a missing item, a failure of the
    runtime's store, of [makeSlackTextMessage] or of the receive pipeline
    is logged, never thrown. *)
Theorem eventHandler_settles (E : Env) (cfg : Config) (message : socket_message)
    (st st1 : State) (me : identity) (ev body_ev : slack_event) (key : string) (from : obj) :
  self cfg = Some me →
  resolve E message st = (Normal (Some (ev, body_ev, key, Some from)), st1) →
  strict_equal (get from "id") (VString (self_user_id me)) = false →
  (eventHandler E cfg message st).1 = Normal tt.
Proof.
  intros Hme Hres Hother.
  destruct (eventHandler_reaches E cfg message st st1 me ev body_ev key from Hme Hres Hother)
    as (body_ev' & _ & _ & -> & _).
  unfold dispatch, try_catch.
  match goal with |- context [match ?m ?s with _ => _ end] => destruct (m s) as [[[]|e] st2] end;
    done.
Qed.

(** X17: a [file_shared] event of somebody else hands exactly one
    message to the receive pipeline: the [FileSharedMessage] of the
    resolved user (with the event's channel as room), the file id and the
    event time stamp of [message.body.event]. *)
Theorem eventHandler_file_shared (E : Env) (cfg : Config) (message : socket_message)
    (st st1 : State) (me : identity) (ev body_ev : slack_event) (key : string) (from : obj) :
  self cfg = Some me →
  resolve E message st = (Normal (Some (ev, body_ev, key, Some from)), st1) →
  strict_equal (get from "id") (VString (self_user_id me)) = false →
  type ev = Some "file_shared" →
  received (trace (eventHandler E cfg message st).2) =
  (received (trace st) ++
   [FileSharedMessage (with_room ev from) (file_id body_ev) (event_ts body_ev)])%list.
Proof.
  intros Hme Hres Hother Htype.
  destruct (eventHandler_reaches E cfg message st st1 me ev body_ev key from Hme Hres Hother)
    as (body_ev' & _ & Hshape & -> & Hrec).
  rewrite Hshape. unfold dispatch, is_type. rewrite Htype. decide_types.
  cbn [orb]. unfold try_catch, mbind, M_bind, log, emit, receive, call.
  cbn [trace]. rewrite <- Hrec.
  destruct (robot_receive E _ _) as [[]|e]; cbn [snd trace];
    rewrite !received_app; simpl; by rewrite ?app_nil_r.
Qed.


(** X19: a reaction event without item is dropped: reading the type of
    the missing item throws inside the dispatch, which logs the error;
    nothing is received. *)
Theorem eventHandler_reaction_without_item (E : Env) (cfg : Config)
    (message : socket_message) (st st1 : State) (me : identity) (ev body_ev : slack_event)
    (key : string) (from : obj) :
  self cfg = Some me →
  resolve E message st = (Normal (Some (ev, body_ev, key, Some from)), st1) →
  strict_equal (get from "id") (VString (self_user_id me)) = false →
  type ev = Some "reaction_added" ∨ type ev = Some "reaction_removed" →
  item body_ev = None →
  eventHandler E cfg message st =
  (Normal tt, add_effects (before_dispatch ev key from st1) [Log error_level "eventHandler error"]) ∧
  received (trace (eventHandler E cfg message st).2) = received (trace st).
Proof.
  intros Hme Hres Hother Htype Hitem.
  destruct (eventHandler_reaches E cfg message st st1 me ev body_ev key from Hme Hres Hother)
    as (body_ev' & _ & Hshape & -> & Hrec).
  rewrite Hshape. unfold dispatch, is_type.
  destruct Htype as [Htype|Htype]; rewrite Htype; decide_types; cbn [orb];
    cbn [item set_text]; rewrite Hitem;
    unfold try_catch, mbind, M_bind, throw, log, emit; cbn [snd trace];
    (split; [done|]); unfold add_effects; cbn [trace]; rewrite received_app, Hrec; simpl;
    by rewrite app_nil_r.
Qed.

(** X20: an event of somebody else of any other type is treated as a
    text message: [makeSlackTextMessage] is called with the resolved
    user, the rewritten text, the event and the channel, and is handed the
    client. Whatever it did through the client stays; then, when it
    succeeded, the handler hands exactly one [SlackTextMessage] to the
    receive pipeline (a failure of the pipeline costs one error line);
    when it failed the message is dropped with one error line and the
    handler hands nothing to the pipeline. The handler adds nothing else
    and does not touch the brain or the cache afterwards. *)
Theorem eventHandler_text (E : Env) (cfg : Config) (message : socket_message)
    (st st1 : State) (me : identity) (ev body_ev : slack_event) (key : string) (from : obj) :
  self cfg = Some me →
  resolve E message st = (Normal (Some (ev, body_ev, key, Some from)), st1) →
  strict_equal (get from "id") (VString (self_user_id me)) = false →
  Forall (λ t, type ev ≠ Some t) handled_types →
  ∃ body_ev',
    preprocess cfg body_ev = Normal body_ev' ∧
    let called := add_effects (before_dispatch ev key from st1)
                    [Log debug "Received generic message"; MakeText (event_text body_ev')] in
    let d := makeSlackTextMessage E called (with_room ev from) (event_text body_ev') body_ev'
               (channel_id ev) in
    let made := {| users := brain_after d; channelData := cache_after d;
                   trace := (trace called ++ effects d)%list |} in
    let msg := SlackTextMessage (with_room ev from) (event_text body_ev') body_ev'
                 (channel_id ev) in
    match outcome d with
    | Normal _ =>
        eventHandler E cfg message st =
        (Normal tt,
         add_effects made
           (Receive msg ::
            match robot_receive E (trace made) msg with
            | Normal _ => []
            | Throw _ => [Log error_level "Dropping message due to error"]
            end)) ∧
        received (trace (eventHandler E cfg message st).2) =
        (received (trace st) ++ received (effects d) ++ [msg])%list
    | Throw _ =>
        eventHandler E cfg message st =
        (Normal tt, add_effects made [Log error_level "Dropping message due to error"]) ∧
        received (trace (eventHandler E cfg message st).2) =
        (received (trace st) ++ received (effects d))%list
    end.
Proof.
  intros Hme Hres Hother Htypes.
  destruct (eventHandler_reaches E cfg message st st1 me ev body_ev key from Hme Hres Hother)
    as (body_ev' & Hpre & _ & -> & Hrec).
  exists body_ev'. split; [exact Hpre|]. cbv zeta.
  unfold handled_types in Htypes. rewrite !Forall_cons in Htypes.
  destruct Htypes as (H1 & H2 & H3 & H4 & H5 & _).
  unfold dispatch, is_type. rewrite !bool_decide_eq_false_2 by done. cbn [orb].
  unfold try_catch, mbind, M_bind, log, emit, receive, call, call_makeSlackTextMessage.
  assert (∀ s a b, add_effects {| users := users s; channelData := channelData s;
                                  trace := (trace s ++ [a])%list |} [b]
                   = add_effects s [a; b]) as Hcalled.
  { intros s a b. unfold add_effects. simpl. by rewrite <- app_assoc. }
  rewrite Hcalled.
  set (called := add_effects (before_dispatch ev key from st1) _).
  assert (received (trace called) = received (trace st)) as Hrc.
  { unfold called, add_effects. cbn [trace]. rewrite received_app, Hrec. simpl.
    apply app_nil_r. }
  destruct (makeSlackTextMessage E called (with_room ev from) (event_text body_ev') body_ev'
              (channel_id ev)) as [[[]|e] us cd es]; cbn [outcome brain_after cache_after effects].
  - cbn [trace users channelData].
    destruct (robot_receive E _ _) as [[]|e]; cbn [snd trace];
      (split; [unfold add_effects; cbn [trace users channelData]; by rewrite <- ?app_assoc|]);
      rewrite !received_app, Hrc; simpl; by rewrite ?app_nil_r, <- ?app_assoc.
  - cbn [trace users channelData snd]. split; [done|].
    rewrite !received_app, Hrc. simpl. by rewrite ?app_nil_r.
Qed.

Lemma eventHandler_requests_witness :
  rest_calls (trace (eventHandler (Hubot.env VNull (Some alice_sighted)) slack_cfg
                       (membership_message "member_joined_channel" "U2") brain).2) = [] ∧
  rest_calls (trace (eventHandler (Hubot.env VNull (Some alice_sighted)) slack_cfg
                       (membership_message "member_joined_channel" "U1") brain).2)
    = [users_info (Some "U1")].
Proof.
  split.
  - apply (eventHandler_requests (Hubot.env VNull (Some alice_sighted)) slack_cfg
             (membership_message "member_joined_channel" "U2") brain
             (membership_event "member_joined_channel" "U2")
             (membership_event "member_joined_channel" "U2"));
      try reflexivity; by apply Exists_cons_hd.
  - apply (eventHandler_requests (Hubot.env VNull (Some alice_sighted)) slack_cfg
             (membership_message "member_joined_channel" "U1") brain
             (membership_event "member_joined_channel" "U1")
             (membership_event "member_joined_channel" "U1"));
      try reflexivity; by apply Exists_cons_hd.
Defined.

Lemma eventHandler_no_actor_witness :
  eventHandler (Hubot.env VNull None) slack_cfg (wrap anonymous_event) brain
    = (Normal tt, add_effects brain [Log debug "eventHandler"; Ack]) ∧
  eventHandler (Hubot.env VNull None) slack_cfg (SocketMessage false None None None) brain
    = (Normal tt, add_effects brain [Log debug "eventHandler"]).
Proof.
  split.
  - apply (eventHandler_no_actor (Hubot.env VNull None) slack_cfg (wrap anonymous_event) brain).
    + right. exists anonymous_event. by split.
    + reflexivity.
  - apply (eventHandler_no_actor (Hubot.env VNull None) slack_cfg
             (SocketMessage false None None None) brain).
    + by left.
    + discriminate.
Defined.

Lemma eventHandler_unauthenticated_witness :
  eventHandler (Hubot.env VNull None) unauthenticated (wrap file_event) brain
    = (Throw TypeError, acknowledged) ∧
  eventWrapper (Some (eventHandler (Hubot.env VNull None) unauthenticated)) (wrap file_event)
    brain = (Normal tt, add_effects acknowledged [Log error_level wrapper_error]).
Proof.
  destruct (eventHandler_unauthenticated (Hubot.env VNull None) unauthenticated
              (wrap file_event) brain acknowledged
              (file_event, file_event, "U2", Some bob_record) eq_refl eq_refl)
    as (Hh & _ & Hw).
  by split.
Defined.

Lemma eventHandler_settles_witness :
  (eventHandler (Hubot.env VNull None) slack_cfg (wrap (reaction_event None)) brain).1
  = Normal tt.
Proof.
  apply (eventHandler_settles (Hubot.env VNull None) slack_cfg (wrap (reaction_event None))
           brain acknowledged hubot_U123 (reaction_event None) (reaction_event None) "U2"
           bob_record); reflexivity.
Defined.

Lemma eventHandler_file_shared_witness :
  received (trace (eventHandler (Hubot.env VNull None) slack_cfg (wrap file_event) brain).2)
  = [FileSharedMessage (with_room file_event bob_record) (Some "F1")
       (Some "1700000002.000200")].
Proof.
  apply (eventHandler_file_shared (Hubot.env VNull None) slack_cfg (wrap file_event) brain
           acknowledged hubot_U123 file_event file_event "U2" bob_record); reflexivity.
Defined.


Lemma eventHandler_reaction_without_item_witness :
  received (trace (eventHandler (Hubot.env VNull None) slack_cfg
                     (wrap (reaction_event None)) brain).2) = [] ∧
  errors_logged (trace (eventHandler (Hubot.env VNull None) slack_cfg
                          (wrap (reaction_event None)) brain).2) = ["eventHandler error"].
Proof.
  destruct (eventHandler_reaction_without_item (Hubot.env VNull None) slack_cfg
              (wrap (reaction_event None)) brain acknowledged hubot_U123
              (reaction_event None) (reaction_event None) "U2" bob_record
              eq_refl eq_refl eq_refl (or_introl eq_refl) eq_refl) as [Hh Hr].
  split; [exact Hr|]. by rewrite Hh.
Defined.

Lemma eventHandler_text_witness :
  ∃ body_ev',
    preprocess slack_cfg hello_im = Normal body_ev' ∧
    received (trace (eventHandler (Hubot.env VNull None) slack_cfg (wrap hello_im) brain).2)
    = [SlackTextMessage (with_room hello_im bob_record) (event_text body_ev') body_ev'
         (Some "D42")].
Proof.
  destruct (eventHandler_text (Hubot.env VNull None) slack_cfg (wrap hello_im) brain
              acknowledged hubot_U123 hello_im hello_im "U2" bob_record
              eq_refl eq_refl eq_refl) as (body_ev' & Hpre & _ & Hr).
  { unfold handled_types. repeat constructor; discriminate. }
  exists body_ev'. split; [exact Hpre|]. exact Hr.
Defined.

End EventMore.

(** ** User directory: [SlackBot.usersLoaded] *)

Module UsersLoadedFacts.
Import SlackClient SlackBot Sample Notions Sample2 UserDirectoryFacts DirectoryMore.



(** A failed load and an empty workspace are reported alike: with
    an error, or with no member at all, [usersLoaded] logs "Can't fetch
    users" and stores nothing. *)
Lemma usersLoaded_nothing (E : Env) (err : option error) (res : option (list obj))
    (st : State) :
  is_Some err ∨ res = Some [] →
  usersLoaded E err res st = (Normal None, add_effects st [Log error_level cannot_fetch]).
Proof.
  intros [[e ->]| ->]; [done|]. by destruct err.
Qed.

Lemma usersLoaded_nothing_witness :
  usersLoaded (Hubot.env VNull None) (Some (Error "ratelimited")) None brain
    = (Normal None, add_effects brain [Log error_level cannot_fetch]) ∧
  usersLoaded (Hubot.env VNull None) None (Some []) brain
    = (Normal None, add_effects brain [Log error_level cannot_fetch]).
Proof.
  split.
  - apply (usersLoaded_nothing (Hubot.env VNull None) (Some (Error "ratelimited")) None brain).
    left. by eexists.
  - apply (usersLoaded_nothing (Hubot.env VNull None) None (Some []) brain). by right.
Defined.



End UsersLoadedFacts.

(** ** Text preprocessing: substrings, idempotence, first mention *)

Module TextMore.
Import SlackBot Sample Notions Sample2 TextFacts.

Lemma append_cons (x : ascii) (a b : string) : String x a +:+ b = String x (a +:+ b).
Proof. reflexivity. Qed.

Lemma append_assoc (a b c : string) : (a +:+ b) +:+ c = a +:+ (b +:+ c).
Proof. induction a as [|x a IH]; [done|]. rewrite !append_cons. by f_equal. Qed.

Lemma strip_prefix_sound (p s r : string) : strip_prefix p s = Some r → s = p +:+ r.
Proof.
  revert s. induction p as [|a p IH]; intros s; simpl.
  { by intros [= ->]. }
  destruct s as [|b s]; [done|].
  destruct (Ascii.eqb_spec a b) as [->|]; [|done].
  intros Hr. by rewrite (IH s Hr).
Qed.

Lemma strip_prefix_extend (p s r t : string) :
  strip_prefix p s = Some r → strip_prefix p (s +:+ t) = Some (r +:+ t).
Proof.
  intros ->%strip_prefix_sound. rewrite append_assoc. apply strip_prefix_app.
Qed.

(** [split_first] cuts the text around an occurrence of the pattern. *)
Lemma split_first_sound (pat s before after : string) :
  split_first pat s = Some (before, after) → s = before +:+ pat +:+ after.
Proof.
  revert before. induction s as [|c s IH]; intros before; rewrite split_first_unfold.
  - destruct (strip_prefix pat "") as [rest|] eqn:Hp; [|done].
    intros [= <- <-]. apply strip_prefix_sound in Hp. exact Hp.
  - destruct (strip_prefix pat (String c s)) as [rest|] eqn:Hp.
    + intros [= <- <-]. apply strip_prefix_sound in Hp. exact Hp.
    + destruct (split_first pat s) as [[b a]|]; [|done].
      intros [= <- <-]. rewrite append_cons. by rewrite <- (IH b eq_refl).
Qed.

(** The occurrence is the first one: the pattern does not occur in what
    precedes it. *)
Lemma split_first_first (pat s before after : string) :
  pat ≠ "" →
  split_first pat s = Some (before, after) → split_first pat before = None.
Proof.
  intros Hpat. revert before. induction s as [|c s IH]; intros before;
    rewrite split_first_unfold.
  - destruct (strip_prefix pat "") as [rest|] eqn:Hp; [|done].
    intros [= <- <-]. by destruct pat.
  - destruct (strip_prefix pat (String c s)) as [rest|] eqn:Hp.
    + intros [= <- <-]. by destruct pat.
    + destruct (split_first pat s) as [[b a]|] eqn:Hs; [|done].
      intros [= <- <-]. rewrite split_first_unfold, (IH b eq_refl).
      destruct (strip_prefix pat (String c b)) as [rest|] eqn:Hb; [|done].
      apply (strip_prefix_extend _ _ _ (pat +:+ a)) in Hb.
      apply split_first_sound in Hs. rewrite append_cons, <- Hs in Hb. congruence.
Qed.

(** Every text that contains the pattern is found to include it. *)
Lemma includes_middle (a pat c : string) : includes (a +:+ pat +:+ c) pat = true.
Proof.
  unfold includes. induction a as [|x a IH].
  - change ("" +:+ pat +:+ c) with (pat +:+ c). by rewrite split_first_prefix.
  - rewrite append_cons, split_first_unfold.
    destruct (strip_prefix pat (String x (a +:+ pat +:+ c))); [done|].
    by destruct (split_first pat (a +:+ pat +:+ c)) as [[? ?]|].
Qed.

(** X22: [addBotIdToMessage] leaves the text alone outside direct
    messages and when the text is empty, and prefixes a direct message at
    most once: applied to its own result it changes nothing. *)
Theorem addBotIdToMessage_once (cfg : Config) (me : identity) (event : slack_event) :
  (channel_type event ≠ Some "im" ∨ event_text event = "" →
   addBotIdToMessage cfg event = Normal (event_text event)) ∧
  (self cfg = Some me →
   ∃ t, addBotIdToMessage cfg event = Normal t ∧
        addBotIdToMessage cfg (set_text event t) = Normal t).
Proof.
  split.
  - intros [Hch|Hempty]; unfold addBotIdToMessage.
    + rewrite (bool_decide_eq_false_2 _ Hch). by rewrite andb_false_r.
    + by rewrite Hempty.
  - intros Hme. unfold addBotIdToMessage. rewrite Hme.
    destruct (truthy (VString (event_text event)) && bool_decide (channel_type event = Some "im"))
      eqn:Hdm.
    + destruct (includes (event_text event) (self_user_id me)) eqn:Hin; cbn [negb].
      * exists (event_text event). split; [done|]. rewrite event_text_set.
        cbn [channel_type set_text]. by rewrite Hdm, Hin.
      * eexists. split; [done|]. rewrite event_text_set. cbn [channel_type set_text].
        apply andb_true_iff in Hdm as [_ ->]. rewrite andb_true_r.
        assert (includes (mention (self_user_id me) +:+ " " +:+ event_text event)
                  (self_user_id me) = true) as ->.
        { unfold mention. rewrite !append_assoc. apply includes_middle. }
        by destruct (truthy _).
    + exists (event_text event). split; [done|]. rewrite event_text_set.
      cbn [channel_type set_text]. by rewrite Hdm.
Qed.

Lemma addBotIdToMessage_once_witness :
  ∃ t, addBotIdToMessage slack_cfg hello_im = Normal t ∧
       addBotIdToMessage slack_cfg (set_text hello_im t) = Normal t.
Proof.
  exact (proj2 (addBotIdToMessage_once slack_cfg hubot_U123 hello_im) eq_refl).
Defined.

Lemma mention_not_empty (id : string) : mention id ≠ "".
Proof. change (String "<" (String "@" (id +:+ ">")) ≠ ""). discriminate. Qed.

(** X23: [replaceBotIdWithName] replaces the first mention of the bot
    and nothing else: the text is cut around the first occurrence of the
    mention token ([before] does not contain it), and the result is
    [before], the replacement (alias, else at-sign and name; one without
    [$]) and [after] unchanged, further mentions included. *)
Theorem replaceBotIdWithName_first (cfg : Config) (me : identity) (event : slack_event) :
  self cfg = Some me →
  includes (event_text event) (mention (self_user_id me)) = true →
  includes (replacement cfg me) "$" = false →
  ∃ before after,
    event_text event = before +:+ mention (self_user_id me) +:+ after ∧
    includes before (mention (self_user_id me)) = false ∧
    replaceBotIdWithName cfg event = Normal (before +:+ replacement cfg me +:+ after).
Proof.
  intros Hme Hin Hplain. unfold replaceBotIdWithName. rewrite Hme, Hin.
  unfold includes in Hin.
  destruct (split_first (mention (self_user_id me)) (event_text event)) as [[before after]|]
    eqn:Hs; [|done].
  exists before, after. split; [by apply split_first_sound|]. split.
  { unfold includes. by rewrite (split_first_first _ _ _ _ (mention_not_empty _) Hs). }
  unfold replacement in *. unfold replace. rewrite Hs.
  destruct (truthy (of_option (alias cfg))); by rewrite get_substitution_plain.
Qed.

Lemma replaceBotIdWithName_first_witness :
  ∃ before after,
    "hey <@U123>, ping <@U123>" = before +:+ "<@U123>" +:+ after ∧
    includes before "<@U123>" = false ∧
    replaceBotIdWithName slack_cfg twice_mentioned = Normal (before +:+ "@hubot" +:+ after).
Proof.
  exact (replaceBotIdWithName_first slack_cfg hubot_U123 twice_mentioned
           eq_refl eq_refl eq_refl).
Defined.

End TextMore.

(** ** Topics, start-up checks, replies *)

Module GatewayMore.
Import SlackClient SlackBot Sample Notions Sample2 SendMore.

(** X24: direct messages and group direct messages have no topic. When
    the conversation is an [im] or an [mpim], [setTopic] asks for the
    conversation, logs that there is nothing to set and returns
    [undefined]; the topic request is not made, whatever it would
    answer. *)
Theorem setTopic_direct_message (c : obj) (set : completion value)
    (conversationId topic : string) :
  truthy (get c "is_im") = true ∨ truthy (get c "is_mpim") = true →
  Topic.setTopic (Normal (VObject c)) set conversationId topic =
  (Normal VUndefined,
   [Topic.Logged debug "SlackClient#setTopic()";
    Topic.Requested (Topic.conversations_info conversationId);
    Topic.Logged debug "Conversation is a DM or MPDM. These conversation types do not have topics."]).
Proof.
  intros Hdm. unfold Topic.setTopic. simpl.
  destruct (truthy (get c "is_im")); [done|]. simpl.
  destruct Hdm as [|Hmp]; [done|]. by rewrite Hmp.
Qed.

Lemma setTopic_direct_message_witness :
  (Topic.setTopic (Normal (VObject direct_conversation)) (Throw (Error "not_in_channel"))
     "D42" "lunch").1 = Normal VUndefined.
Proof.
  by rewrite (setTopic_direct_message direct_conversation (Throw (Error "not_in_channel"))
                "D42" "lunch" (or_introl eq_refl)).
Defined.

(** X25: the two requests of [setTopic] fail differently. A failed
    [conversations.info], or a response without conversation, is caught:
    one error line, the result [undefined], no topic request. For a
    conversation that is neither [im] nor [mpim] the topic request is
    made and its outcome is the outcome of [setTopic]: a failure of
    [conversations.setTopic] reaches the caller and nothing is logged for
    it. *)
Theorem setTopic_failures (info set : completion value) (conversationId topic : string) :
  let started := [Topic.Logged debug "SlackClient#setTopic()";
                  Topic.Requested (Topic.conversations_info conversationId)] in
  ((∀ c, info = Normal c → nullish c = true) →
   Topic.setTopic info set conversationId topic =
   (Normal VUndefined,
    started ++ [Topic.Logged error_level "Error setting topic in conversation"])%list) ∧
  (∀ c, info = Normal (VObject c) →
        truthy (get c "is_im") = false → truthy (get c "is_mpim") = false →
        Topic.setTopic info set conversationId topic =
        (set, started ++ [Topic.Requested (Topic.conversations_setTopic conversationId topic)])%list).
Proof.
  intros started. split.
  - intros Hinfo. unfold Topic.setTopic. destruct info as [c|e]; [|done].
    specialize (Hinfo c eq_refl). by destruct c.
  - intros c -> Him Hmp. unfold Topic.setTopic. simpl. by rewrite Him, Hmp.
Qed.

Lemma setTopic_failures_witness :
  (Topic.setTopic (Throw (Error "channel_not_found")) (Normal VUndefined) "C7" "lunch").1
    = Normal VUndefined ∧
  (Topic.setTopic (Normal (VObject public_conversation)) (Throw (Error "not_in_channel"))
     "C7" "lunch").1 = Throw (Error "not_in_channel").
Proof.
  destruct (setTopic_failures (Throw (Error "channel_not_found")) (Normal VUndefined)
              "C7" "lunch") as [Hcaught _].
  destruct (setTopic_failures (Normal (VObject public_conversation))
              (Throw (Error "not_in_channel")) "C7" "lunch") as [_ Hset].
  split.
  - rewrite Hcaught; [done|]. intros c [=].
  - by rewrite (Hset public_conversation eq_refl eq_refl eq_refl).
Defined.

(** The first five code units of a token are a given five-letter prefix
    exactly when the token starts with it. *)
Lemma needle_prefix (token : string) (a b c d e : ascii) :
  let prefix := String a (String b (String c (String d (String e EmptyString)))) in
  Run.needle token = prefix ↔ ∃ rest, token = prefix +:+ rest.
Proof.
  intros prefix. unfold Run.needle, prefix. split.
  - destruct token as [|t1 [|t2 [|t3 [|t4 [|t5 rest]]]]]; try discriminate.
    intros H. exists rest.
    change (substring 0 5 (String t1 (String t2 (String t3 (String t4 (String t5 rest))))))
      with (String t1 (String t2 (String t3 (String t4 (String t5 (substring 0 0 rest))))))
      in H.
    by injection H as -> -> -> -> ->.
  - intros [rest ->].
    change (substring 0 5 (String a (String b (String c (String d (String e EmptyString))))
                           +:+ rest))
      with (String a (String b (String c (String d (String e (substring 0 0 rest)))))).
    by destruct rest.
Qed.

(** X26: [run] goes past its token checks exactly when the bot token
    starts with "xoxb-" or "xoxp-" and the app token starts with "xapp-";
    otherwise it logs one error line and returns before it registers a
    listener, loads users or connects. *)
Theorem run_token_checks (o : Run.options) :
  Run.refusal o = None ↔
  ∃ bot app,
    Run.botToken o = Some bot ∧ Run.appToken o = Some app ∧
    ((∃ rest, bot = "xoxb-" +:+ rest) ∨ (∃ rest, bot = "xoxp-" +:+ rest)) ∧
    ∃ rest, app = "xapp-" +:+ rest.
Proof.
  unfold Run.refusal. destruct o as [[bot|] [app|]]; simpl.
  - destruct (String.eqb_spec bot ""); simpl.
    { split; [done|]. intros (b & a & [= <-] & _ & [[r ->]|[r ->]] & _); done. }
    destruct (String.eqb_spec app ""); simpl.
    { split; [done|]. intros (b & a & _ & [= <-] & _ & [r ->]); done. }
    destruct (decide (Run.needle bot ∈ ["xoxb-"; "xoxp-"])) as [Hb|Hb].
    + rewrite (bool_decide_eq_true_2 _ Hb). simpl.
      assert ((∃ rest, bot = "xoxb-" +:+ rest) ∨ (∃ rest, bot = "xoxp-" +:+ rest)) as Hbot.
      { apply elem_of_cons in Hb as [Hb|Hb]; [left; by apply needle_prefix in Hb|].
        apply elem_of_cons in Hb as [Hb|Hb]; [right; by apply needle_prefix in Hb|].
        by apply elem_of_nil in Hb. }
      destruct (decide (Run.needle app ∈ ["xapp-"])) as [Ha|Ha].
      * rewrite (bool_decide_eq_true_2 _ Ha). simpl. split; [|done]. intros _.
        exists bot, app. repeat split; [done|].
        apply elem_of_cons in Ha as [Ha|Ha]; [by apply needle_prefix in Ha|].
        by apply elem_of_nil in Ha.
      * rewrite (bool_decide_eq_false_2 _ Ha). simpl. split; [done|].
        intros (b & a & _ & [= <-] & _ & Happ). destruct Ha.
        apply elem_of_cons. left. by apply needle_prefix.
    + rewrite (bool_decide_eq_false_2 _ Hb). simpl. split; [done|].
      intros (b & a & [= <-] & _ & Hbot & _). destruct Hb.
      destruct Hbot as [Hx|Hx]; apply needle_prefix in Hx.
      * apply elem_of_cons. by left.
      * apply elem_of_cons. right. apply elem_of_cons. by left.
  - destruct (String.eqb_spec bot ""); simpl; (split; [done|]);
      by intros (b & a & _ & [=] & _).
  - split; [done|]. by intros (b & a & [=] & _).
  - split; [done|]. by intros (b & a & [=] & _).
Qed.

(** X27: how [reply] addresses a message. In a room whose id starts
    with "D" (a direct message) the message is sent as it is. In any other
    room the message is replaced by a string that mentions the user:
    "<@USER>: " followed by the message converted to a string, so a text
    is prefixed and an object without [toString] of its own is sent as the
    text "<@USER>: [object Object]", its fields lost. *)
Theorem reply_each_addressing (E : Env) (envelope : Envelope.t) (user : obj) (uid : string)
    (c : ascii) (room : string) (message : value) :
  Envelope.room envelope = VString (String c room) →
  get user "id" = VString uid →
  strict_equal message (VString "") = false →
  (c = "D"%char →
   reply_each E envelope (VObject user) (Value message) = send E envelope message) ∧
  (c ≠ "D"%char →
   (∀ s, message = VString s →
         reply_each E envelope (VObject user) (Value message) =
         send E envelope (VString ("<@" +:+ uid +:+ ">: " +:+ s))) ∧
   (∀ o, message = VObject o → o !! "toString" = None →
         reply_each E envelope (VObject user) (Value message) =
         send E envelope (VString ("<@" +:+ uid +:+ ">: [object Object]")))).
Proof.
  intros Hroom Hid Hmsg. unfold reply_each. rewrite Hmsg, Hroom. cbn [negb index0].
  split.
  - intros ->. reflexivity.
  - intros Hc.
    assert (strict_equal (VString (String c EmptyString)) (VString "D") = false) as Hfirst.
    { simpl. by destruct (Ascii.eqb_spec c "D"). }
    split.
    + intros s ->. cbv [mbind M_bind lift mret M_ret]. rewrite Hfirst. cbn [negb prop].
      rewrite Hid. reflexivity.
    + intros o -> Ho. cbv [mbind M_bind lift mret M_ret]. rewrite Hfirst. cbn [negb prop].
      rewrite Hid. cbn [to_string to_property_key]. rewrite Ho. reflexivity.
Qed.

Lemma reply_each_addressing_witness :
  reply_each (Hubot.env VNull None) room_C1 (VObject bob_record) (Value (VString "pong"))
  = send (Hubot.env VNull None) room_C1 (VString "<@U2>: pong").
Proof.
  destruct (reply_each_addressing (Hubot.env VNull None) room_C1 bob_record "U2" "C"%char "1"
              (VString "pong") eq_refl eq_refl eq_refl) as [_ Hchannel].
  destruct Hchannel as [Htext _]; [discriminate|]. exact (Htext "pong" eq_refl).
Defined.

(** X28: [reply] needs [envelope.room]. With a room that is [undefined]
    or [null] it throws a TypeError (reading [envelope.room[0]]) and sends
    nothing, even when [envelope.id] names a conversation that [send]
    would have used. *)
Theorem reply_each_without_room (E : Env) (envelope : Envelope.t) (user message : value)
    (st : State) :
  nullish (Envelope.room envelope) = true →
  strict_equal message (VString "") = false →
  reply_each E envelope user (Value message) st = (Throw TypeError, st).
Proof.
  intros Hroom Hmsg. unfold reply_each. rewrite Hmsg. cbn [negb].
  cbv [mbind M_bind lift]. by destruct (Envelope.room envelope).
Qed.

Lemma reply_each_without_room_witness :
  let envelope := Envelope.Build VUndefined (VString "C1") None in
  room_of envelope = VString "C1" ∧
  reply_each (Hubot.env VNull None) envelope (VObject bob_record) (Value (VString "pong"))
    Hubot.initial = (Throw TypeError, Hubot.initial).
Proof.
  intros envelope. split; [reflexivity|].
  apply (reply_each_without_room (Hubot.env VNull None) envelope (VObject bob_record)
           (VString "pong") Hubot.initial); reflexivity.
Defined.

End GatewayMore.

(** ** Event normaliser: what the handler writes into the brain *)

Module BrainMore.
Import SlackClient SlackBot Sample Notions Sample2 TextFacts EventFacts EventMore.

(** X29: handling a membership or [file_shared] event of somebody else
    updates the brain's record of the acting user: its [room] becomes the
    channel of the event, or the empty string when the event has none,
    its [name] becomes [null] when it had none, every other field is kept,
    and no other record changes after the resolution. *)
Theorem eventHandler_sets_room (E : Env) (cfg : Config) (message : socket_message)
    (st st1 : State) (me : identity) (ev body_ev : slack_event) (key : string) (from : obj) :
  self cfg = Some me →
  resolve E message st = (Normal (Some (ev, body_ev, key, Some from)), st1) →
  strict_equal (get from "id") (VString (self_user_id me)) = false →
  type ev = Some "member_joined_channel" ∨ type ev = Some "member_left_channel" ∨
  type ev = Some "file_shared" →
  users (eventHandler E cfg message st).2 = <[key := with_room ev from]> (users st1) ∧
  with_room ev from !! "room" = Some (VString (default "" (channel_id ev))) ∧
  with_room ev from !! "name" = Some (coalesce (get from "name") VNull) ∧
  ∀ k, k ≠ "room" → k ≠ "name" → with_room ev from !! k = from !! k.
Proof.
  intros Hme Hres Hother Htype.
  destruct (eventHandler_reaches E cfg message st st1 me ev body_ev key from Hme Hres Hother)
    as (body_ev' & _ & _ & -> & _).
  split.
  - unfold dispatch, is_type.
    destruct Htype as [Htype|[Htype|Htype]]; rewrite Htype; decide_types; cbn [orb];
      unfold try_catch, mbind, M_bind, log, emit, receive, call; cbn [trace users];
      by destruct (robot_receive E _ _) as [[]|?].
  - unfold with_room. split; [|split].
    + rewrite lookup_insert_ne by done. apply lookup_insert_eq.
    + rewrite lookup_insert_eq. unfold get. by rewrite lookup_insert_ne.
    + intros k Hr Hn. by rewrite !lookup_insert_ne.
Qed.

Lemma eventHandler_sets_room_witness :
  users (eventHandler (Hubot.env VNull None) slack_cfg (wrap file_event) brain).2 !! "U2"
  = Some (with_room file_event bob_record) ∧
  with_room file_event bob_record !! "room" = Some (VString "C7").
Proof.
  destruct (eventHandler_sets_room (Hubot.env VNull None) slack_cfg (wrap file_event) brain
              acknowledged hubot_U123 file_event file_event "U2" bob_record
              eq_refl eq_refl eq_refl) as (Hu & Hr & _); [by right; right|].
  split; [|exact Hr]. rewrite Hu. apply lookup_insert_eq.
Defined.

End BrainMore.
